(** * TaskFlow API (src/main.py): a shallow embedding and its CRUD contract

    The service is a FastAPI application over one MongoDB collection.  The
    handlers of [main.py] are embedded as functions in a state-and-exception
    monad over the collection; the parts of the libraries they call
    (bson's [ObjectId], pydantic's field validation, the collection methods
    of the driver, [datetime.isoformat]) are embedded next to them, each
    with the behaviour the handlers rely on.

    Python [str] is embedded as [string], one [ascii] per character.  The
    clock and the identifier generator of the driver are inputs of the
    handlers that read them.  A response is the dictionary the handler
    returns, before FastAPI serializes it against the [response_model]. *)

From Stdlib Require Import Ascii String NArith Lia.
From Stdlib Require Strings.Byte.
From stdpp Require Import base option list gmap strings fin_maps.

Open Scope string_scope.

(** ** Python values held in documents and response dictionaries *)

(** [bson.ObjectId] wraps the raw [bytes] of the identifier ([self.__id]). *)
Abbreviation bytes := (list Byte.byte).
Abbreviation ObjectId := bytes.

#[global] Instance byte_eq_dec : EqDecision Byte.byte := Byte.byte_eq_dec.

Inductive value :=
| VNone
| VStr (s : string)
| VObjectId (o : ObjectId).

#[global] Instance value_eq_dec : EqDecision value.
Proof. solve_decision. Defined.

(** A Python [dict] with [str] keys. *)
Abbreviation dict := (gmap string value).

(** ** bson.objectid *)

Module Hex.

(** [binascii.hexlify] writes lower-case digits. *)
Definition digit (n : N) : ascii :=
  match n with
  | 0 => "0" | 1 => "1" | 2 => "2" | 3 => "3" | 4 => "4" | 5 => "5"
  | 6 => "6" | 7 => "7" | 8 => "8" | 9 => "9" | 10 => "a" | 11 => "b"
  | 12 => "c" | 13 => "d" | 14 => "e" | _ => "f"
  end%N%char.

(** [bytes.fromhex] reads digits of either case. *)
Definition value_of (c : ascii) : option N :=
  let n := N_of_ascii c in
  if ((48 <=? n) && (n <=? 57))%N then Some (n - 48)%N
  else if ((97 <=? n) && (n <=? 102))%N then Some (n - 87)%N
  else if ((65 <=? n) && (n <=? 70))%N then Some (n - 55)%N
  else None.

(** [Py_ISSPACE]: space, \t, \n, \v, \f, \r. *)
Definition isspace (c : ascii) : bool :=
  let n := N_of_ascii c in
  ((n =? 32) || ((9 <=? n) && (n <=? 13)))%N.

Fixpoint hexlify (bs : bytes) : string :=
  match bs with
  | [] => EmptyString
  | b :: bs' =>
      let n := Byte.to_N b in
      String (digit (n / 16)) (String (digit (n mod 16)) (hexlify bs'))
  end.

(** [bytes.fromhex]: two digits per byte, ASCII whitespace skipped between
    bytes; [None] stands for the [ValueError]. *)
Fixpoint fromhex (s : string) : option bytes :=
  match s with
  | EmptyString => Some []
  | String c s' =>
      if isspace c then fromhex s'
      else match s' with
           | EmptyString => None
           | String d s'' =>
               match value_of c, value_of d with
               | Some hi, Some lo =>
                   b ← Byte.of_N (16 * hi + lo)%N; cons b <$> fromhex s''
               | _, _ => None
               end
           end
  end.

End Hex.

(** [ObjectId(oid)] for a [str] argument ([ObjectId.__validate]): the string
    must have 24 characters and pass [bytes.fromhex]; [None] stands for
    [InvalidId]. *)
Definition ObjectId_of_str (oid : string) : option ObjectId :=
  if (String.length oid =? 24)%nat then Hex.fromhex oid else None.

(** [ObjectId.is_valid(oid)]. *)
Definition is_valid (oid : string) : bool :=
  if bool_decide (oid = EmptyString) then false
  else match ObjectId_of_str oid with Some _ => true | None => false end.

(** [ObjectId.__str__]. *)
Definition ObjectId_str (o : ObjectId) : string := Hex.hexlify o.

(** What [ObjectId()] generates: twelve bytes (timestamp, random value,
    counter). *)
Definition generated (o : ObjectId) : Prop := length o = 12%nat.

(** [str(v)] on the values a document holds. *)
Definition py_str (v : value) : string :=
  match v with
  | VNone => "None"
  | VStr s => s
  | VObjectId o => ObjectId_str o
  end.

(** ** datetime *)

(** A naive [datetime.datetime]: the value [datetime.utcnow()] returns. *)
Record datetime := {
  year : N; month : N; day : N;
  hour : N; minute : N; second : N; microsecond : N
}.

(** The ranges the [datetime] constructor enforces (MINYEAR = 1,
    MAXYEAR = 9999). *)
Definition datetime_ok (t : datetime) : Prop :=
  (1 <= year t <= 9999 ∧ 1 <= month t <= 12 ∧ 1 <= day t <= 31
   ∧ hour t < 24 ∧ minute t < 60 ∧ second t < 60 ∧ microsecond t < 1000000)%N.

(** [n] written with exactly [w] decimal digits, zero padded (the format %0wd). *)
Fixpoint zfill (w : nat) (n : N) (rest : string) : string :=
  match w with
  | O => rest
  | S w' => String (ascii_of_N (48 + (n / 10 ^ N.of_nat w') mod 10)) (zfill w' n rest)
  end.

(** The fraction [isoformat] appends: ".ffffff" when the microsecond is not
    zero. *)
Definition fraction (us : N) : string :=
  if (us =? 0)%N then EmptyString else String "." (zfill 6 us EmptyString).

(** [datetime.isoformat()]: "YYYY-MM-DDTHH:MM:SS" and the fraction. *)
Definition isoformat (t : datetime) : string :=
  zfill 4 (year t) (String "-" (zfill 2 (month t) (String "-" (zfill 2 (day t)
  (String "T" (zfill 2 (hour t) (String ":" (zfill 2 (minute t) (String ":"
  (zfill 2 (second t) (fraction (microsecond t)))))))))))).

(** Comparison of two lists of numbers, first difference decides; a proper
    prefix is smaller. *)
Fixpoint lex_compare (xs ys : list N) : comparison :=
  match xs, ys with
  | [], [] => Eq
  | [], _ :: _ => Lt
  | _ :: _, [] => Gt
  | x :: xs', y :: ys' =>
      match (x ?= y)%N with Eq => lex_compare xs' ys' | c => c end
  end.

(** [datetime.__le__] on naive values compares the seven components in
    order. *)
Definition datetime_fields (t : datetime) : list N :=
  [year t; month t; day t; hour t; minute t; second t; microsecond t].

Definition datetime_compare (a b : datetime) : comparison :=
  lex_compare (datetime_fields a) (datetime_fields b).

Definition datetime_le (a b : datetime) : Prop := datetime_compare a b ≠ Gt.

(** [str.__le__]: code points compared in order. *)
Fixpoint code_points (s : string) : list N :=
  match s with
  | EmptyString => []
  | String c s' => N_of_ascii c :: code_points s'
  end.

Definition str_compare (a b : string) : comparison :=
  lex_compare (code_points a) (code_points b).

Definition str_le (a b : string) : Prop := str_compare a b ≠ Gt.

(** ** Exceptions and results *)

Inductive exn :=
| HTTPException (status_code : nat) (detail : string)
| RequestValidationError
| KeyError (key : string)
| TypeError
| InvalidId
| DuplicateKeyError.

Inductive result (A : Type) :=
| Ok (a : A)
| Raise (e : exn).
Arguments Ok {A} a.
Arguments Raise {A} e.

#[global] Instance result_ret : MRet result := @Ok.
#[global] Instance result_bind : MBind result := λ A B f r,
  match r with Ok a => f a | Raise e => Raise e end.

(** ** The collection *)

(** A filter [{"_id": id}]. *)
Definition matches (id : value) (d : dict) : bool :=
  bool_decide (d !! "_id" = Some id).

(** The calls made to [tasks_collection], in order. *)
Inductive store_call :=
| CallFind
| CallFindOne (id : value)
| CallInsertOne (document : dict)
| CallUpdateOne (id : value) (set : dict)
| CallDeleteOne (id : value).

(** The collection: its documents in natural order, and the calls it has
    served (newest first). *)
Record store := {
  docs : list dict;
  calls : list store_call
}.

(** Handlers run against the store and either return or raise. *)
Definition M (A : Type) : Type := store → result A * store.

#[global] Instance M_ret : MRet M := λ A a s, (Ok a, s).
#[global] Instance M_bind : MBind M := λ A B f m s,
  match m s with
  | (Ok a, s') => f a s'
  | (Raise e, s') => (Raise e, s')
  end.

Definition raise {A} (e : exn) : M A := λ s, (Raise e, s).

Definition lift {A} (r : result A) : M A := λ s, (r, s).

Definition called (c : store_call) (s : store) : store :=
  {| docs := docs s; calls := c :: calls s |}.

(** [find()] and iteration over the cursor. *)
Definition find : M (list dict) := λ s, (Ok (docs s), called CallFind s).

(** [find_one({"_id": id})]: the first match, or [None]. *)
Definition find_one (id : value) : M (option dict) := λ s,
  (Ok (List.find (matches id) (docs s)), called (CallFindOne id) s).

(** [insert_one(document)]: a document without ["_id"] gets the identifier
    [fresh] that the driver generates for it; the unique index on ["_id"]
    refuses a second document with the same one.  Returns [inserted_id]. *)
Definition insert_one (fresh : ObjectId) (document : dict) : M value := λ s,
  let id := default (VObjectId fresh) (document !! "_id") in
  let s' := called (CallInsertOne document) s in
  if existsb (matches id) (docs s) then (Raise DuplicateKeyError, s')
  else (Ok id, {| docs := docs s ++ [<["_id" := id]> document]; calls := calls s' |}).

(** [$set]: the first match takes every field of [set]; the count of matched
    documents comes with the new list. *)
Fixpoint set_first (id : value) (set : dict) (ds : list dict) : nat * list dict :=
  match ds with
  | [] => (0%nat, [])
  | d :: ds' =>
      if matches id d then (1%nat, (set ∪ d) :: ds')
      else let '(n, r) := set_first id set ds' in (n, d :: r)
  end.

(** [update_one({"_id": id}, {"$set": set})], returning [matched_count]. *)
Definition update_one (id : value) (set : dict) : M nat := λ s,
  let '(n, ds) := set_first id set (docs s) in
  (Ok n, {| docs := ds; calls := CallUpdateOne id set :: calls s |}).

Fixpoint remove_first (id : value) (ds : list dict) : nat * list dict :=
  match ds with
  | [] => (0%nat, [])
  | d :: ds' =>
      if matches id d then (1%nat, ds')
      else let '(n, r) := remove_first id ds' in (n, d :: r)
  end.

(** [delete_one({"_id": id})], returning [deleted_count]. *)
Definition delete_one (id : value) : M nat := λ s,
  let '(n, ds) := remove_first id (docs s) in
  (Ok n, {| docs := ds; calls := CallDeleteOne id :: calls s |}).

(** ** Pydantic models *)

(** A JSON value of a request body, as far as a [str] field tells them
    apart: [null], a string, or anything else (number, boolean, array,
    object). *)
Inductive json :=
| JNull
| JString (s : string)
| JOther.

Abbreviation body := (gmap string json).

(** [Field(min_length=1, max_length=200)]. *)
Definition length_1_200 (s : string) : bool :=
  (1 <=? String.length s)%nat && (String.length s <=? 200)%nat.

(** [Field(pattern="^(done|pending|not-done|dropped)$")]: the whole string is
    one of the alternatives. *)
Definition status_values : list string := ["done"; "pending"; "not-done"; "dropped"].

Definition status_pattern (s : string) : bool := bool_decide (s ∈ status_values).

Definition unconstrained (s : string) : bool := true.

(** A field annotated [str]: a string that passes [check]; [default] when the
    key is absent ([None] when the field is required). *)
Definition str_field (check : string → bool) (default : option string)
    (v : option json) : result string :=
  match v with
  | None => from_option Ok (Raise RequestValidationError) default
  | Some (JString s) => if check s then Ok s else Raise RequestValidationError
  | Some _ => Raise RequestValidationError
  end.

(** A field annotated [Optional[str]] with default [None]. *)
Definition optional_str_field (check : string → bool) (v : option json) :
    result (option string) :=
  match v with
  | None | Some JNull => Ok None
  | Some (JString s) => if check s then Ok (Some s) else Raise RequestValidationError
  | Some JOther => Raise RequestValidationError
  end.

Definition of_optional (o : option string) : value :=
  match o with Some s => VStr s | None => VNone end.

Module TaskCreate.

Record t := {
  title : string;
  description : option string;
  deadline : option string;
  status : string
}.

Definition validate (b : body) : result t :=
  title ← str_field length_1_200 None (b !! "title");
  description ← optional_str_field unconstrained (b !! "description");
  deadline ← optional_str_field unconstrained (b !! "deadline");
  status ← str_field status_pattern (Some "not-done") (b !! "status");
  Ok {| title := title; description := description;
        deadline := deadline; status := status |}.

End TaskCreate.

Module TaskUpdate.

Record t := {
  title : option string;
  description : option string;
  deadline : option string;
  status : option string;
  (** [model_fields_set]: the fields the input gave, [null] included *)
  fields_set : list string
}.

Definition field_names : list string :=
  ["title"; "description"; "deadline"; "status"].

Definition validate (b : body) : result t :=
  title ← optional_str_field length_1_200 (b !! "title");
  description ← optional_str_field unconstrained (b !! "description");
  deadline ← optional_str_field unconstrained (b !! "deadline");
  status ← optional_str_field status_pattern (b !! "status");
  Ok {| title := title; description := description;
        deadline := deadline; status := status;
        fields_set := filter (λ k, is_Some (b !! k)) field_names |}.

(** [.dict()]. *)
Definition model_dump (u : t) : dict :=
  <["title" := of_optional (title u)]>
  (<["description" := of_optional (description u)]>
  (<["deadline" := of_optional (deadline u)]>
  (<["status" := of_optional (status u)]> ∅))).

(** [.dict(exclude_unset=True)]. *)
Definition dict_exclude_unset (u : t) : dict :=
  filter (λ kv, kv.1 ∈ fields_set u) (model_dump u).

End TaskUpdate.

(** ** The handlers of main.py *)

(** [task[key]]. *)
Definition getitem (task : dict) (key : string) : result value :=
  from_option Ok (Raise (KeyError key)) (task !! key).

(** [task.get(key)]. *)
Definition get (task : dict) (key : string) : value :=
  default VNone (task !! key).

(** [ObjectId(task_id)]. *)
Definition ObjectId_new (task_id : string) : result value :=
  from_option (λ o, Ok (VObjectId o)) (Raise InvalidId) (ObjectId_of_str task_id).

(** Truth value of what [find_one] returned: [None] and the empty [dict]
    are false. *)
Definition truthy (task : option dict) : bool :=
  match task with
  | Some d => negb (bool_decide (d = ∅))
  | None => false
  end.

Definition task_helper (task : option dict) : result dict :=
  match task with
  | None => Raise TypeError
  | Some task =>
      _id ← getitem task "_id";
      title ← getitem task "title";
      status ← getitem task "status";
      created_at ← getitem task "created_at";
      last_updated ← getitem task "last_updated";
      Ok (<["_id" := VStr (py_str _id)]>
          (<["title" := title]>
          (<["description" := get task "description"]>
          (<["deadline" := get task "deadline"]>
          (<["status" := status]>
          (<["created_at" := created_at]>
          (<["last_updated" := last_updated]> ∅)))))))
  end.

Definition root (utcnow : datetime) : M dict :=
  mret (<["status" := VStr "online"]>
       (<["message" := VStr "TaskFlow API is running"]>
       (<["timestamp" := VStr (isoformat utcnow)]> ∅))).

Definition get_tasks : M (list dict) :=
  cursor ← find;
  lift (mapM (λ task, task_helper (Some task)) cursor).

Definition get_task (task_id : string) : M dict :=
  if negb (is_valid task_id) then
    raise (HTTPException 400 "Invalid task ID format")
  else
    oid ← lift (ObjectId_new task_id);
    task ← find_one oid;
    if truthy task then lift (task_helper task)
    else raise (HTTPException 404 "Task not found").

(** [utcnow] is what [datetime.utcnow()] returns during the call, [fresh] the
    identifier the driver generates for the inserted document. *)
Definition create_task (utcnow : datetime) (fresh : ObjectId)
    (task : TaskCreate.t) : M dict :=
  let now := isoformat utcnow in
  let task_dict : dict :=
    <["title" := VStr (TaskCreate.title task)]>
    (<["description" := of_optional (TaskCreate.description task)]>
    (<["deadline" := of_optional (TaskCreate.deadline task)]>
    (<["status" := VStr (TaskCreate.status task)]>
    (<["created_at" := VStr now]>
    (<["last_updated" := VStr now]> ∅))))) in
  inserted_id ← insert_one fresh task_dict;
  created_task ← find_one inserted_id;
  lift (task_helper created_task).

Definition update_task (utcnow : datetime) (task_id : string)
    (task_update : TaskUpdate.t) : M dict :=
  if negb (is_valid task_id) then
    raise (HTTPException 400 "Invalid task ID format")
  else
    let update_dict : dict :=
      filter (λ kv, kv.2 ≠ VNone) (TaskUpdate.dict_exclude_unset task_update) in
    if bool_decide (update_dict = ∅) then
      raise (HTTPException 400 "No fields to update")
    else
      let update_dict := <["last_updated" := VStr (isoformat utcnow)]> update_dict in
      oid ← lift (ObjectId_new task_id);
      matched_count ← update_one oid update_dict;
      if (matched_count =? 0)%nat then
        raise (HTTPException 404 "Task not found")
      else
        oid ← lift (ObjectId_new task_id);
        updated_task ← find_one oid;
        lift (task_helper updated_task).

Definition delete_task (task_id : string) : M dict :=
  if negb (is_valid task_id) then
    raise (HTTPException 400 "Invalid task ID format")
  else
    oid ← lift (ObjectId_new task_id);
    deleted_count ← delete_one oid;
    if (deleted_count =? 0)%nat then
      raise (HTTPException 404 "Task not found")
    else
      mret (<["message" := VStr "Task deleted successfully"]>
           (<["id" := VStr task_id]> ∅)).

(** ** The application: routes and request validation *)

Inductive request :=
| GET_root
| GET_tasks
| GET_task (task_id : string)
| POST_tasks (b : body)
| PUT_task (task_id : string) (b : body)
| DELETE_task (task_id : string).

Inductive response :=
| JSONObject (d : dict)
| JSONArray (l : list dict).

(** What a request reads from outside the store: the clock and the
    identifier generator. *)
Record env := {
  utcnow : datetime;
  fresh : ObjectId
}.

(** FastAPI validates the body against the model of the route before it calls
    the handler. *)
Definition app (e : env) (r : request) : M response :=
  match r with
  | GET_root => d ← root (utcnow e); mret (JSONObject d)
  | GET_tasks => l ← get_tasks; mret (JSONArray l)
  | GET_task task_id => d ← get_task task_id; mret (JSONObject d)
  | POST_tasks b =>
      task ← lift (TaskCreate.validate b);
      d ← create_task (utcnow e) (fresh e) task; mret (JSONObject d)
  | PUT_task task_id b =>
      task_update ← lift (TaskUpdate.validate b);
      d ← update_task (utcnow e) task_id task_update; mret (JSONObject d)
  | DELETE_task task_id => d ← delete_task task_id; mret (JSONObject d)
  end.

(** A sequence of requests served one after the other. *)
Definition serve (trace : list (env * request)) (s : store) : store :=
  foldl (λ s er, (app er.1 er.2 s).2) s trace.

Definition empty_store : store := {| docs := []; calls := [] |}.

(** ** Vocabulary of the contract *)

(** The identifiers of the documents of a collection. *)
Definition ids (ds : list dict) : list (option value) := (λ d, d !! "_id") <$> ds.

(** The identifier string [task_id] names a document of the store. *)
Definition stored (task_id : string) (s : store) : bool :=
  match ObjectId_of_str task_id with
  | Some o => existsb (matches (VObjectId o)) (docs s)
  | None => false
  end.

(** No document of the store carries the identifier [o]. *)
Definition unused (o : ObjectId) (s : store) : Prop :=
  existsb (matches (VObjectId o)) (docs s) = false.

(** The fields an update applies: those set in the payload and not null
    (the comprehension of [update_task]). *)
Definition update_fields (u : TaskUpdate.t) : dict :=
  filter (λ kv, kv.2 ≠ VNone) (TaskUpdate.dict_exclude_unset u).

(** A document as [create_task] writes it: a generated identifier and the
    fields [task_helper] subscripts. *)
Definition task_document (d : dict) : Prop :=
  (∃ o, d !! "_id" = Some (VObjectId o) ∧ generated o)
  ∧ is_Some (d !! "title") ∧ is_Some (d !! "status")
  ∧ is_Some (d !! "created_at") ∧ is_Some (d !! "last_updated").

(** A collection of task documents under the unique index on ["_id"]. *)
Definition store_ok (s : store) : Prop :=
  NoDup (ids (docs s)) ∧ Forall task_document (docs s).

(** The keys of a serialized task. *)
Definition response_keys : gset string :=
  {[ "_id"; "title"; "description"; "deadline"; "status"; "created_at"; "last_updated" ]}.

(** The clock readings of a sequence of requests never go back, and each is
    a [datetime]. *)
Fixpoint clock_from (t : datetime) (trace : list (env * request)) : Prop :=
  match trace with
  | [] => True
  | er :: trace' =>
      datetime_ok (utcnow er.1) ∧ datetime_le t (utcnow er.1)
      ∧ clock_from (utcnow er.1) trace'
  end.

Definition clock_monotone (trace : list (env * request)) : Prop :=
  match trace with
  | [] => True
  | er :: trace' => datetime_ok (utcnow er.1) ∧ clock_from (utcnow er.1) trace'
  end.


(** The [$set] argument of [update_task]. *)
Definition update_dict (now : datetime) (u : TaskUpdate.t) : dict :=
  <["last_updated" := VStr (isoformat now)]> (update_fields u).

(** The document [create_task] persists: its [task_dict] under the
    identifier the driver generated. *)
Definition new_document (now : datetime) (o : ObjectId) (task : TaskCreate.t) : dict :=
  <["_id" := VObjectId o]>
  (<["title" := VStr (TaskCreate.title task)]>
  (<["description" := of_optional (TaskCreate.description task)]>
  (<["deadline" := of_optional (TaskCreate.deadline task)]>
  (<["status" := VStr (TaskCreate.status task)]>
  (<["created_at" := VStr (isoformat now)]>
  (<["last_updated" := VStr (isoformat now)]> ∅)))))).

(** Its serialization by [task_helper]. *)
Definition new_response (now : datetime) (o : ObjectId) (task : TaskCreate.t) : dict :=
  <["_id" := VStr (ObjectId_str o)]>
  (<["title" := VStr (TaskCreate.title task)]>
  (<["description" := of_optional (TaskCreate.description task)]>
  (<["deadline" := of_optional (TaskCreate.deadline task)]>
  (<["status" := VStr (TaskCreate.status task)]>
  (<["created_at" := VStr (isoformat now)]>
  (<["last_updated" := VStr (isoformat now)]> ∅)))))).

(** The ["status"] of a document is one of the four values. *)
Definition status_ok (d : dict) : Prop :=
  ∃ st, d !! "status" = Some (VStr st) ∧ st ∈ status_values.

(** The timestamps of a document are readings [c] and [u] of the clock with
    [c] not after [u] and [u] not after [t]. *)
Definition stamped (t : datetime) (d : dict) : Prop :=
  ∃ c u, datetime_ok c ∧ datetime_ok u
    ∧ d !! "created_at" = Some (VStr (isoformat c))
    ∧ d !! "last_updated" = Some (VStr (isoformat u))
    ∧ datetime_le c u ∧ datetime_le u t.

(** ** Sample data *)

Module Sample.

Definition t0 : datetime :=
  {| year := 2024; month := 5; day := 17;
     hour := 9; minute := 3; second := 0; microsecond := 0 |}.

Definition t1 : datetime :=
  {| year := 2024; month := 5; day := 17;
     hour := 9; minute := 3; second := 0; microsecond := 1250 |}.

Definition oid : ObjectId :=
  [Byte.x64; Byte.xf0; Byte.xc2; Byte.xa1; Byte.xb3; Byte.xd4;
   Byte.xe5; Byte.xf6; Byte.x07; Byte.x18; Byte.x29; Byte.x3a].

Definition oid_str : string := "64f0c2a1b3d4e5f60718293a".

(** A well-formed identifier that names nothing in [store1]. *)
Definition other_str : string := "64f0c2a1b3d4e5f60718293b".

Definition e0 : env := {| utcnow := t0; fresh := oid |}.
Definition e1 : env := {| utcnow := t1; fresh := oid |}.

Definition new_task : body := {[ "title" := JString "Write report" ]}.

(** What [TaskCreate] makes of [new_task]. *)
Definition task1 : TaskCreate.t :=
  {| TaskCreate.title := "Write report"; TaskCreate.description := None;
     TaskCreate.deadline := None; TaskCreate.status := "not-done" |}.

(** The store after [POST /tasks {"title": "Write report"}]. *)
Definition store1 : store := (app e0 (POST_tasks new_task) empty_store).2.

Definition set_done : TaskUpdate.t :=
  {| TaskUpdate.title := None; TaskUpdate.description := None;
     TaskUpdate.deadline := None; TaskUpdate.status := Some "done";
     TaskUpdate.fields_set := ["status"] |}.

(** [{"description": null}]. *)
Definition null_description : TaskUpdate.t :=
  {| TaskUpdate.title := None; TaskUpdate.description := None;
     TaskUpdate.deadline := None; TaskUpdate.status := None;
     TaskUpdate.fields_set := ["description"] |}.

(** [POST /tasks {"title": "Write report"}], then
    [PUT /tasks/64f0... {"status": "done", "description": null}] a moment
    later. *)
Definition trace1 : list (env * request) :=
  [(e0, POST_tasks new_task);
   (e1, PUT_task oid_str (<["status" := JString "done"]> {[ "description" := JNull ]}))].

End Sample.

(** ** The response model *)

Module TaskResponse.

Record t := {
  title : string;
  description : option string;
  deadline : option string;
  status : string;
  id : string;
  created_at : string;
  last_updated : string
}.

(** A field annotated [str] read from a Python value: only a [str] passes;
    [None] stands for the validation error. *)
Definition str_value (check : string → bool) (default : option string)
    (v : option value) : option string :=
  match v with
  | None => default
  | Some (VStr s) => if check s then Some s else None
  | Some _ => None
  end.

Definition optional_str_value (v : option value) : option (option string) :=
  match v with
  | None | Some VNone => Some None
  | Some (VStr s) => Some (Some s)
  | Some (VObjectId _) => None
  end.

(** Validation of what a handler returned; [id] is read under its alias
    ["_id"], or under its name ([populate_by_name]).  [None] stands for the
    [ResponseValidationError]. *)
Definition validate (d : dict) : option t :=
  title ← str_value length_1_200 None (d !! "title");
  description ← optional_str_value (d !! "description");
  deadline ← optional_str_value (d !! "deadline");
  status ← str_value status_pattern (Some "not-done") (d !! "status");
  id ← str_value unconstrained None
          (match d !! "_id" with Some v => Some v | None => d !! "id" end);
  created_at ← str_value unconstrained None (d !! "created_at");
  last_updated ← str_value unconstrained None (d !! "last_updated");
  Some {| title := title; description := description; deadline := deadline;
          status := status; id := id; created_at := created_at;
          last_updated := last_updated |}.

(** Serialization by alias, every field included. *)
Definition dump (m : t) : dict :=
  <["_id" := VStr (id m)]>
  (<["title" := VStr (title m)]>
  (<["description" := of_optional (description m)]>
  (<["deadline" := of_optional (deadline m)]>
  (<["status" := VStr (status m)]>
  (<["created_at" := VStr (created_at m)]>
  (<["last_updated" := VStr (last_updated m)]> ∅)))))).

End TaskResponse.

(** ** The connection string *)

Module Urllib.

(** The characters [quote] never escapes: letters, digits and [_.-~]. *)
Definition always_safe (c : ascii) : bool :=
  let n := N_of_ascii c in
  (((48 <=? n) && (n <=? 57)) || ((65 <=? n) && (n <=? 90))
   || ((97 <=? n) && (n <=? 122))
   || (n =? 95) || (n =? 46) || (n =? 45) || (n =? 126))%N.

(** Upper-case hexadecimal digit. *)
Definition HEX (n : N) : ascii :=
  if (n <? 10)%N then ascii_of_N (48 + n) else ascii_of_N (55 + n).

(** [%XX] for one byte. *)
Definition percent (b : N) (rest : string) : string :=
  String "%" (String (HEX (b / 16)) (String (HEX (b mod 16)) rest)).

(** The UTF-8 bytes of one character (code points up to 255). *)
Definition utf8 (c : ascii) : list N :=
  let n := N_of_ascii c in
  if (n <? 128)%N then [n] else [192 + n / 64; 128 + n mod 64]%N.

(** [quote_plus(s)]: safe characters stay, a space becomes [+], every other
    character becomes the [%XX] of its UTF-8 bytes. *)
Fixpoint quote_plus (s : string) : string :=
  match s with
  | EmptyString => EmptyString
  | String c s' =>
      if always_safe c then String c (quote_plus s')
      else if (N_of_ascii c =? 32)%N then String "+" (quote_plus s')
      else foldr percent (quote_plus s') (utf8 c)
  end.

End Urllib.



(** ** Vocabulary of the further properties *)

(** The document has the keys [task_helper] subscripts. *)
Definition serializable (d : dict) : Prop :=
  is_Some (d !! "_id") ∧ is_Some (d !! "title") ∧ is_Some (d !! "status")
  ∧ is_Some (d !! "created_at") ∧ is_Some (d !! "last_updated").

(** [None] or a [str]. *)
Definition optional_str (v : option value) : Prop :=
  v = Some VNone ∨ ∃ s, v = Some (VStr s).

(** A document whose fields have the types and bounds of the models. *)
Definition typed_document (d : dict) : Prop :=
  (∃ o, d !! "_id" = Some (VObjectId o))
  ∧ (∃ t, d !! "title" = Some (VStr t) ∧ length_1_200 t = true)
  ∧ optional_str (d !! "description")
  ∧ optional_str (d !! "deadline")
  ∧ status_ok d
  ∧ (∃ c, d !! "created_at" = Some (VStr c))
  ∧ (∃ u, d !! "last_updated" = Some (VStr u)).



(** The dictionary [task_helper] builds from the five values it subscripts. *)
Definition serialized (d : dict) (id title status created_at last_updated : value) : dict :=
  <["_id" := VStr (py_str id)]>
  (<["title" := title]>
  (<["description" := get d "description"]>
  (<["deadline" := get d "deadline"]>
  (<["status" := status]>
  (<["created_at" := created_at]>
  (<["last_updated" := last_updated]> ∅)))))).



Module Sample2.

(** Another spelling of [Sample.oid_str]. *)
Definition upper_str : string := "64F0C2A1B3D4E5F60718293A".

Definition done_body : body := {[ "status" := JString "done" ]}.

Definition t2 : datetime :=
  {| year := 2024; month := 5; day := 18;
     hour := 0; minute := 0; second := 0; microsecond := 0 |}.

Definition oid2 : ObjectId :=
  [Byte.x64; Byte.xf0; Byte.xc2; Byte.xa1; Byte.xb3; Byte.xd4;
   Byte.xe5; Byte.xf6; Byte.x07; Byte.x18; Byte.x29; Byte.x3b].

Definition e2 : env := {| utcnow := t2; fresh := oid2 |}.

(** [store1] after a second [POST /tasks]. *)
Definition store2 : store :=
  (app e2 (POST_tasks {[ "title" := JString "Call Ada" ]}) Sample.store1).2.

End Sample2.

Ltac unfold_M :=
  unfold mbind, M_bind, mret, M_ret, raise, lift, find_one, update_one,
    delete_one, insert_one, find, called in *.

(** * Properties *)

(** ** bson.objectid: [str] and the constructor are inverse *)

Section ObjectId_facts.

Lemma byte_digits (b : Byte.byte) :
  let n := Byte.to_N b in
  Hex.isspace (Hex.digit (n / 16)) = false
  ∧ Hex.value_of (Hex.digit (n / 16)) = Some (n / 16)%N
  ∧ Hex.value_of (Hex.digit (n mod 16)) = Some (n mod 16)%N
  ∧ Byte.of_N (16 * (n / 16) + n mod 16) = Some b.
Proof. destruct b; vm_compute; auto. Qed.

Lemma fromhex_hexlify (bs : bytes) : Hex.fromhex (Hex.hexlify bs) = Some bs.
Proof.
  induction bs as [|b bs IH]; [reflexivity|].
  destruct (byte_digits b) as (Hsp & Hhi & Hlo & Hb).
  cbn [Hex.hexlify Hex.fromhex].
  rewrite Hsp, Hhi, Hlo. cbn [mbind option_bind]. rewrite Hb.
  cbn [mbind option_bind]. rewrite IH. reflexivity.
Qed.

Lemma length_hexlify (bs : bytes) :
  String.length (Hex.hexlify bs) = (2 * length bs)%nat.
Proof. induction bs as [|b bs IH]; cbn [Hex.hexlify String.length length]; lia. Qed.

Lemma ObjectId_of_str_str (o : ObjectId) :
  generated o → ObjectId_of_str (ObjectId_str o) = Some o.
Proof.
  unfold generated, ObjectId_of_str, ObjectId_str. intros Hlen.
  rewrite length_hexlify, Hlen. cbn [Nat.mul Nat.add Nat.eqb].
  apply fromhex_hexlify.
Qed.

Lemma is_valid_str (o : ObjectId) : generated o → is_valid (ObjectId_str o) = true.
Proof.
  intros Hgen. unfold is_valid. rewrite (ObjectId_of_str_str o Hgen).
  case_bool_decide as Hempty; [|reflexivity].
  pose proof (length_hexlify o) as Hlen. unfold ObjectId_str in Hempty.
  rewrite Hempty in Hlen. unfold generated in Hgen. rewrite Hgen in Hlen. discriminate.
Qed.

Lemma is_valid_Some (task_id : string) :
  is_valid task_id = true → ∃ o, ObjectId_of_str task_id = Some o.
Proof.
  unfold is_valid. case_bool_decide; [discriminate|].
  destruct (ObjectId_of_str task_id) as [o|]; [eauto|discriminate].
Qed.

End ObjectId_facts.

Section Collection_facts.

Implicit Types (id : value) (d : dict) (ds : list dict).

Lemma matches_true id d : matches id d = true ↔ d !! "_id" = Some id.
Proof. unfold matches. apply bool_decide_eq_true. Qed.

Lemma existsb_matches_false id ds :
  existsb (matches id) ds = false ↔ Forall (λ d, d !! "_id" ≠ Some id) ds.
Proof.
  induction ds as [|d ds IH]; cbn [existsb].
  - split; [constructor|reflexivity].
  - rewrite orb_false_iff, IH, Forall_cons, <- matches_true, not_true_iff_false.
    reflexivity.
Qed.

Lemma find_None_matches id ds :
  existsb (matches id) ds = false → List.find (matches id) ds = None.
Proof.
  induction ds as [|d ds IH]; cbn [existsb List.find]; [reflexivity|].
  intros [-> H]%orb_false_iff. auto.
Qed.

Lemma find_Some_matches id ds :
  existsb (matches id) ds = true →
  ∃ d, List.find (matches id) ds = Some d ∧ d ∈ ds ∧ d !! "_id" = Some id.
Proof.
  induction ds as [|d ds IH]; cbn [existsb List.find]; [discriminate|].
  destruct (matches id d) eqn:Hm; cbn [orb].
  - intros _. exists d. rewrite matches_true in Hm. split_and!; [done|left|done].
  - intros (d' & ? & ? & ?)%IH. exists d'. split_and!; [done|by right|done].
Qed.

Lemma find_unique id d ds :
  NoDup (ids ds) → d ∈ ds → d !! "_id" = Some id →
  List.find (matches id) ds = Some d.
Proof.
  induction ds as [|d0 ds IH]; cbn [ids fmap list_fmap List.find].
  - intros _ []%elem_of_nil.
  - intros [Hnot Hnd]%NoDup_cons [->|Hin]%elem_of_cons Hid.
    + apply matches_true in Hid. by rewrite Hid.
    + destruct (matches id d0) eqn:Hm; [|by apply IH].
      apply matches_true in Hm. exfalso. apply Hnot.
      rewrite Hm, <- Hid. apply (list_elem_of_fmap_2 (λ d, d !! "_id")), Hin.
Qed.

(** [$set] leaves every document in place, and changes the matched one
    only. *)
Lemma set_first_Forall2 id set ds :
  Forall2 (λ d d', d' = d ∨ d' = set ∪ d) ds (set_first id set ds).2.
Proof.
  induction ds as [|d ds IH]; cbn [set_first]; [constructor|].
  destruct (matches id d).
  - constructor; [by right|]. apply Forall2_same_length_lookup_2; [done|].
    intros i x y ? ?; left; congruence.
  - destruct (set_first id set ds) as [n r]. constructor; [by left|exact IH].
Qed.

Lemma set_first_count id set ds :
  (set_first id set ds).1 = if existsb (matches id) ds then 1%nat else 0%nat.
Proof.
  induction ds as [|d ds IH]; cbn [set_first existsb]; [reflexivity|].
  destruct (matches id d); [reflexivity|].
  destruct (set_first id set ds) as [n r]. exact IH.
Qed.

Lemma set_first_no_match id set ds :
  existsb (matches id) ds = false → (set_first id set ds).2 = ds.
Proof.
  induction ds as [|d ds IH]; cbn [set_first existsb]; [reflexivity|].
  intros [-> H]%orb_false_iff. specialize (IH H).
  destruct (set_first id set ds) as [n r]. cbn in *. by rewrite IH.
Qed.

(** As long as [set] does not touch ["_id"], the first match of the
    identifier after [$set] is the updated document. *)
Lemma find_set_first id set ds :
  set !! "_id" = None → existsb (matches id) ds = true →
  ∃ d, List.find (matches id) ds = Some d
       ∧ List.find (matches id) (set_first id set ds).2 = Some (set ∪ d).
Proof.
  intros Hset. induction ds as [|d ds IH]; cbn [set_first existsb List.find]; [discriminate|].
  destruct (matches id d) eqn:Hm; cbn [orb].
  - intros _. exists d. split; [done|]. cbn [snd List.find].
    assert (matches id (set ∪ d) = true) as ->; [|done].
    apply matches_true in Hm. apply matches_true.
    rewrite lookup_union_r; done.
  - intros (d' & Hf & Hf')%IH. exists d'. split; [done|].
    destruct (set_first id set ds) as [n r]. cbn [snd List.find] in *. by rewrite Hm.
Qed.

Lemma remove_first_count id ds :
  (remove_first id ds).1 = if existsb (matches id) ds then 1%nat else 0%nat.
Proof.
  induction ds as [|d ds IH]; cbn [remove_first existsb]; [reflexivity|].
  destruct (matches id d); [reflexivity|].
  destruct (remove_first id ds) as [n r]. exact IH.
Qed.

Lemma remove_first_no_match id ds :
  existsb (matches id) ds = false → (remove_first id ds).2 = ds.
Proof.
  induction ds as [|d ds IH]; cbn [remove_first existsb]; [reflexivity|].
  intros [-> H]%orb_false_iff. specialize (IH H).
  destruct (remove_first id ds) as [n r]. cbn in *. by rewrite IH.
Qed.

Lemma remove_first_sublist id ds : (remove_first id ds).2 `sublist_of` ds.
Proof.
  induction ds as [|d ds IH]; cbn [remove_first]; [constructor|].
  destruct (matches id d); [by apply sublist_cons|].
  destruct (remove_first id ds) as [n r]. by apply sublist_skip.
Qed.

(** With unique identifiers nothing matches once the first match is gone. *)
Lemma remove_first_gone id ds :
  NoDup (ids ds) → existsb (matches id) (remove_first id ds).2 = false.
Proof.
  induction ds as [|d ds IH]; cbn [remove_first ids fmap list_fmap]; [reflexivity|].
  intros [Hnot Hnd]%NoDup_cons. destruct (matches id d) eqn:Hm.
  - cbn [snd]. apply existsb_matches_false, Forall_forall. intros d' Hin Hid.
    apply matches_true in Hm. apply Hnot. rewrite Hm, <- Hid.
    apply (list_elem_of_fmap_2 (λ d, d !! "_id")), Hin.
  - specialize (IH Hnd). destruct (remove_first id ds) as [n r].
    cbn [snd existsb] in *. by rewrite Hm, IH.
Qed.

End Collection_facts.

Section Update_fields.

Implicit Types (u : TaskUpdate.t) (k : string) (v : value).

Lemma model_dump_keys u k v :
  TaskUpdate.model_dump u !! k = Some v → k ∈ TaskUpdate.field_names.
Proof.
  unfold TaskUpdate.model_dump, TaskUpdate.field_names. intros H.
  repeat (apply lookup_insert_Some in H as [[<- _]|[_ H]]; [set_solver|]).
  by rewrite lookup_empty in H.
Qed.

Lemma update_fields_Some u k v :
  update_fields u !! k = Some v ↔
  TaskUpdate.model_dump u !! k = Some v ∧ k ∈ TaskUpdate.fields_set u ∧ v ≠ VNone.
Proof.
  unfold update_fields, TaskUpdate.dict_exclude_unset.
  rewrite !map_lookup_filter_Some. cbn. tauto.
Qed.

Lemma update_fields_unset u k :
  k ∉ TaskUpdate.fields_set u → update_fields u !! k = None.
Proof.
  intros Hk. apply eq_None_not_Some. intros [v Hv].
  apply update_fields_Some in Hv. tauto.
Qed.

Lemma update_fields_other u k :
  k ∉ TaskUpdate.field_names → update_fields u !! k = None.
Proof.
  intros Hk. apply eq_None_not_Some. intros [v Hv].
  apply update_fields_Some in Hv as (Hv & _). by apply model_dump_keys in Hv.
Qed.

Lemma update_fields_not_None u k : update_fields u !! k ≠ Some VNone.
Proof. intros Hv. apply update_fields_Some in Hv. tauto. Qed.

Lemma update_fields_id u : update_fields u !! "_id" = None.
Proof. apply update_fields_other. by apply (bool_decide_unpack _). Qed.

Lemma update_fields_created_at u : update_fields u !! "created_at" = None.
Proof. apply update_fields_other. by apply (bool_decide_unpack _). Qed.

End Update_fields.

Section Handlers.

Implicit Types (s : store) (task_id : string) (u : TaskUpdate.t).

Lemma ObjectId_new_valid task_id :
  is_valid task_id = true →
  ∃ o, ObjectId_of_str task_id = Some o ∧ ObjectId_new task_id = Ok (VObjectId o).
Proof.
  intros (o & Ho)%is_valid_Some. exists o. split; [done|].
  unfold ObjectId_new. by rewrite Ho.
Qed.

(** What [update_task] does to the documents. *)
Lemma update_task_docs now task_id u s :
  docs (update_task now task_id u s).2 = docs s
  ∨ ∃ id, docs (update_task now task_id u s).2
          = (set_first id (<["last_updated" := VStr (isoformat now)]> (update_fields u)) (docs s)).2.
Proof.
  unfold update_task. fold (update_fields u).
  destruct (is_valid task_id) eqn:Hv; cbn [negb]; [|by left].
  case_bool_decide; [by left|].
  destruct (ObjectId_new_valid _ Hv) as (o & _ & ->).
  right. exists (VObjectId o). unfold_M.
  destruct (set_first _ _ (docs s)) as [n ds] eqn:Hset. cbn [snd].
  destruct (n =? 0)%nat; [done|].
  done.
Qed.

(** A successful update: the first match takes the fields of the payload
    and the new ["last_updated"], and its serialization is returned. *)
Lemma update_task_found now task_id u s :
  is_valid task_id = true → stored task_id s = true → update_fields u ≠ ∅ →
  ∃ o d, ObjectId_of_str task_id = Some o
    ∧ List.find (matches (VObjectId o)) (docs s) = Some d
    ∧ (update_task now task_id u s).1 = task_helper (Some (update_dict now u ∪ d))
    ∧ docs (update_task now task_id u s).2
      = (set_first (VObjectId o) (update_dict now u) (docs s)).2.
Proof.
  intros Hv Hs Hu. unfold update_task. fold (update_fields u). rewrite Hv. cbn [negb].
  rewrite bool_decide_eq_false_2 by done. fold (update_dict now u).
  destruct (ObjectId_new_valid _ Hv) as (o & Ho & ->). unfold stored in Hs.
  rewrite Ho in Hs. unfold_M.
  pose proof (set_first_count (VObjectId o) (update_dict now u) (docs s)) as Hn.
  destruct (find_set_first (VObjectId o) (update_dict now u) (docs s)) as (d & Hd & Hd').
  { unfold update_dict. rewrite lookup_insert_ne by done.
    apply update_fields_other. by apply (bool_decide_unpack _). }
  { done. }
  rewrite Hs in Hn. destruct (set_first _ _ (docs s)) as [n ds] eqn:Hset.
  cbn [fst snd] in *. subst n. cbn [Nat.eqb docs]. rewrite Hd'.
  exists o, d. split_and!; [done|done|done|]. cbn [snd docs]. by rewrite Hset.
Qed.

Lemma get_task_docs task_id s : docs (get_task task_id s).2 = docs s.
Proof.
  unfold get_task. destruct (is_valid task_id) eqn:Hv; cbn [negb]; [|done].
  destruct (ObjectId_new_valid _ Hv) as (o & _ & ->). unfold_M.
  destruct (truthy _); [|done]. by destruct (task_helper _).
Qed.

Lemma get_task_found task_id o d s :
  ObjectId_of_str task_id = Some o → task_id ≠ EmptyString →
  List.find (matches (VObjectId o)) (docs s) = Some d →
  (get_task task_id s).1 = task_helper (Some d).
Proof.
  intros Ho Hne Hfind. unfold get_task, is_valid, ObjectId_new.
  rewrite Ho, bool_decide_eq_false_2 by done. cbn [negb from_option]. unfold_M.
  rewrite Hfind. cbn [truthy].
  apply find_some in Hfind as [_ Hm%matches_true].
  rewrite bool_decide_eq_false_2; [done|].
  intros ->. by rewrite lookup_empty in Hm.
Qed.

Lemma get_task_missing task_id s :
  is_valid task_id = true → stored task_id s = false →
  (get_task task_id s).1 = Raise (HTTPException 404 "Task not found").
Proof.
  intros Hv Hs. unfold get_task. rewrite Hv. cbn [negb].
  destruct (ObjectId_new_valid _ Hv) as (o & Ho & ->). unfold stored in Hs.
  rewrite Ho in Hs. unfold_M. by rewrite (find_None_matches _ _ Hs).
Qed.

Lemma update_task_missing now task_id u s :
  is_valid task_id = true → stored task_id s = false → update_fields u ≠ ∅ →
  (update_task now task_id u s).1 = Raise (HTTPException 404 "Task not found")
  ∧ docs (update_task now task_id u s).2 = docs s.
Proof.
  intros Hv Hs Hu. unfold update_task. fold (update_fields u). rewrite Hv. cbn [negb].
  rewrite bool_decide_eq_false_2 by done.
  destruct (ObjectId_new_valid _ Hv) as (o & Ho & ->). unfold stored in Hs.
  rewrite Ho in Hs. unfold_M.
  pose proof (set_first_count (VObjectId o)
    (<["last_updated" := VStr (isoformat now)]> (update_fields u)) (docs s)) as Hn.
  pose proof (set_first_no_match (VObjectId o)
    (<["last_updated" := VStr (isoformat now)]> (update_fields u)) (docs s) Hs) as Hd.
  rewrite Hs in Hn. destruct (set_first _ _ (docs s)) as [n ds].
  cbn [fst snd] in *. subst. done.
Qed.

Lemma delete_task_missing task_id s :
  is_valid task_id = true → stored task_id s = false →
  (delete_task task_id s).1 = Raise (HTTPException 404 "Task not found")
  ∧ docs (delete_task task_id s).2 = docs s.
Proof.
  intros Hv Hs. unfold delete_task. rewrite Hv. cbn [negb].
  destruct (ObjectId_new_valid _ Hv) as (o & Ho & ->). unfold stored in Hs.
  rewrite Ho in Hs. unfold_M.
  pose proof (remove_first_count (VObjectId o) (docs s)) as Hn.
  pose proof (remove_first_no_match (VObjectId o) (docs s) Hs) as Hd.
  rewrite Hs in Hn. destruct (remove_first _ (docs s)) as [n ds].
  cbn [fst snd] in *. subst. done.
Qed.

Lemma delete_task_stored task_id s :
  is_valid task_id = true → stored task_id s = true →
  ∃ o, ObjectId_of_str task_id = Some o
    ∧ (delete_task task_id s).1
      = Ok (<["message" := VStr "Task deleted successfully"]> (<["id" := VStr task_id]> ∅))
    ∧ docs (delete_task task_id s).2 = (remove_first (VObjectId o) (docs s)).2.
Proof.
  intros Hv Hs. unfold delete_task. rewrite Hv. cbn [negb].
  destruct (ObjectId_new_valid _ Hv) as (o & Ho & ->). unfold stored in Hs.
  rewrite Ho in Hs. exists o. split; [done|]. unfold_M.
  pose proof (remove_first_count (VObjectId o) (docs s)) as Hn.
  rewrite Hs in Hn. destruct (remove_first _ (docs s)) as [n ds].
  cbn [fst snd] in *. subst. done.
Qed.

End Handlers.

Section Create.

Implicit Types (s : store) (task : TaskCreate.t) (o : ObjectId).

Lemma find_app_new id d (ds : list dict) :
  existsb (matches id) ds = false → d !! "_id" = Some id →
  List.find (matches id) (ds ++ [d])%list = Some d.
Proof.
  intros Hds Hd. induction ds as [|d0 ds IH]; cbn [Datatypes.app List.find existsb] in *.
  - apply matches_true in Hd. by rewrite Hd.
  - apply orb_false_iff in Hds as [-> Hds]. auto.
Qed.

Lemma task_helper_new now o task :
  task_helper (Some (new_document now o task)) = Ok (new_response now o task).
Proof.
  unfold task_helper, new_document, getitem, get.
  repeat (rewrite ?lookup_insert_eq;
          rewrite ?lookup_insert_ne by done).
  reflexivity.
Qed.

(** [create_task] with a fresh identifier: the document is appended and
    its serialization returned. *)
Lemma create_task_fresh now o task s :
  unused o s →
  (create_task now o task s).1 = Ok (new_response now o task)
  ∧ docs (create_task now o task s).2 = (docs s ++ [new_document now o task])%list.
Proof.
  unfold unused. intros Hfree. unfold create_task. unfold_M.
  rewrite lookup_insert_ne by done. rewrite lookup_insert_ne by done.
  rewrite lookup_insert_ne by done. rewrite lookup_insert_ne by done.
  rewrite lookup_insert_ne by done. rewrite lookup_insert_ne by done.
  rewrite lookup_empty. cbn [default]. rewrite Hfree. cbn [docs].
  fold (new_document now o task).
  rewrite (find_app_new (VObjectId o) (new_document now o task)); [|done|].
  - cbn [fst snd docs]. by rewrite task_helper_new.
  - unfold new_document. by rewrite lookup_insert_eq.
Qed.

Lemma create_task_docs now o task s :
  docs (create_task now o task s).2 = docs s
  ∨ (unused o s ∧ docs (create_task now o task s).2 = (docs s ++ [new_document now o task])%list).
Proof.
  destruct (existsb (matches (VObjectId o)) (docs s)) eqn:Hex.
  - left. unfold create_task. unfold_M.
    repeat rewrite lookup_insert_ne by done.
    rewrite lookup_empty. cbn [default]. by rewrite Hex.
  - right. split; [done|]. by apply create_task_fresh.
Qed.

End Create.

Section Validation.

Lemma validate_create_status (b : body) (task : TaskCreate.t) :
  TaskCreate.validate b = Ok task →
  TaskCreate.status task ∈ status_values
  ∧ (b !! "status" = None → TaskCreate.status task = "not-done").
Proof.
  unfold TaskCreate.validate. cbn [mbind result_bind].
  destruct (str_field length_1_200 None _) as [title|]; [|discriminate].
  destruct (optional_str_field unconstrained (b !! "description")) as [descr|]; [|discriminate].
  destruct (optional_str_field unconstrained (b !! "deadline")) as [dl|]; [|discriminate].
  destruct (b !! "status") as [[| st |]|] eqn:Hst; cbn [str_field from_option]; try discriminate.
  - unfold status_pattern. case_bool_decide; [|discriminate].
    intros [= <-]. cbn. split; [done|discriminate].
  - intros [= <-]. cbn. split; [|done]. by apply (bool_decide_unpack _).
Qed.

Lemma validate_update_status (b : body) (u : TaskUpdate.t) (st : string) :
  TaskUpdate.validate b = Ok u → TaskUpdate.status u = Some st → st ∈ status_values.
Proof.
  unfold TaskUpdate.validate. cbn [mbind result_bind].
  destruct (optional_str_field length_1_200 _) as [title|]; [|discriminate].
  destruct (optional_str_field unconstrained (b !! "description")) as [descr|]; [|discriminate].
  destruct (optional_str_field unconstrained (b !! "deadline")) as [dl|]; [|discriminate].
  destruct (b !! "status") as [[| st' |]|] eqn:Hst; cbn [optional_str_field]; try discriminate.
  - intros [= <-]. discriminate.
  - unfold status_pattern. case_bool_decide; [|discriminate].
    intros [= <-]. cbn. by intros [= <-].
  - intros [= <-]. discriminate.
Qed.

(** A field given as [null] validates like a field left out. *)
Lemma optional_null_absent (check : string → bool) (k f : string) (b : body) :
  optional_str_field check (<[k := JNull]> b !! f)
  = optional_str_field check (delete k b !! f).
Proof.
  destruct (decide (k = f)) as [->|Hne].
  - by rewrite lookup_insert_eq, lookup_delete_eq.
  - by rewrite lookup_insert_ne, lookup_delete_ne.
Qed.

End Validation.

(** [update_task] reads its payload through [update_fields] only. *)
Lemma update_task_ext (now : datetime) (task_id : string) (u1 u2 : TaskUpdate.t) :
  update_fields u1 = update_fields u2 →
  update_task now task_id u1 = update_task now task_id u2.
Proof.
  intros Heq. unfold update_task. fold (update_fields u1). fold (update_fields u2).
  by rewrite Heq.
Qed.

Lemma update_fields_null_absent (k : string) (b : body)
    (title descr dl st : option string) :
  optional_str_field length_1_200 (delete k b !! "title") = Ok title →
  optional_str_field unconstrained (delete k b !! "description") = Ok descr →
  optional_str_field unconstrained (delete k b !! "deadline") = Ok dl →
  optional_str_field status_pattern (delete k b !! "status") = Ok st →
  update_fields
    {| TaskUpdate.title := title; TaskUpdate.description := descr;
       TaskUpdate.deadline := dl; TaskUpdate.status := st;
       TaskUpdate.fields_set :=
         filter (λ f, is_Some (<[k := JNull]> b !! f)) TaskUpdate.field_names |}
  = update_fields
    {| TaskUpdate.title := title; TaskUpdate.description := descr;
       TaskUpdate.deadline := dl; TaskUpdate.status := st;
       TaskUpdate.fields_set :=
         filter (λ f, is_Some (delete k b !! f)) TaskUpdate.field_names |}.
Proof.
  intros Ht Hd Hl Hs. apply map_eq. intros f. apply option_eq. intros v.
  rewrite !update_fields_Some. cbn [TaskUpdate.fields_set].
  rewrite !list_elem_of_filter.
  destruct (decide (k = f)) as [->|Hne].
  - rewrite lookup_insert_eq, lookup_delete_eq.
    split; [|intros (_ & [[? [=]] _] & _)].
    intros (Hv & _ & Hnn). exfalso. apply Hnn. clear Hnn.
    unfold TaskUpdate.model_dump in Hv. cbn in Hv.
    repeat (apply lookup_insert_Some in Hv as [[<- <-]|[_ Hv]];
            [rewrite lookup_delete_eq in *; by simplify_eq/=|]).
    by rewrite lookup_empty in Hv.
  - by rewrite lookup_insert_ne, lookup_delete_ne.
Qed.

Section App.

Implicit Types (e : env) (s : store).

Lemma bind_ret_state {A B} (m : M A) (f : A → B) s :
  ((a ← m; mret (f a)) s).2 = (m s).2.
Proof. unfold mbind, M_bind, mret, M_ret. by destruct (m s) as [[a|ex] s']. Qed.

Lemma app_PUT_docs e task_id b s :
  docs (app e (PUT_task task_id b) s).2
  = match TaskUpdate.validate b with
    | Ok u => docs (update_task (utcnow e) task_id u s).2
    | Raise _ => docs s
    end.
Proof.
  unfold app. unfold mbind at 1. unfold M_bind, lift.
  destruct (TaskUpdate.validate b) as [u|]; [|done].
  by rewrite (bind_ret_state _ JSONObject).
Qed.

Lemma app_POST_docs e b s :
  docs (app e (POST_tasks b) s).2
  = match TaskCreate.validate b with
    | Ok task => docs (create_task (utcnow e) (fresh e) task s).2
    | Raise _ => docs s
    end.
Proof.
  unfold app. unfold mbind at 1. unfold M_bind, lift.
  destruct (TaskCreate.validate b) as [task|]; [|done].
  by rewrite (bind_ret_state _ JSONObject).
Qed.

Lemma app_GET_docs e task_id s : docs (app e (GET_task task_id) s).2 = docs s.
Proof. unfold app. rewrite (bind_ret_state _ JSONObject). apply get_task_docs. Qed.

Lemma app_DELETE_docs e task_id s :
  docs (app e (DELETE_task task_id) s).2 = docs (delete_task task_id s).2.
Proof. unfold app. by rewrite (bind_ret_state _ JSONObject). Qed.

Lemma app_root_docs e s : docs (app e GET_root s).2 = docs s.
Proof. done. Qed.

Lemma app_list_docs e s : docs (app e GET_tasks s).2 = docs s.
Proof.
  unfold app. rewrite (bind_ret_state _ JSONArray). unfold get_tasks. unfold_M.
  by destruct (mapM _ _).
Qed.

Lemma delete_task_docs task_id s :
  docs (delete_task task_id s).2 = docs s
  ∨ ∃ id, docs (delete_task task_id s).2 = (remove_first id (docs s)).2.
Proof.
  unfold delete_task. destruct (is_valid task_id) eqn:Hv; cbn [negb]; [|by left].
  destruct (ObjectId_new_valid _ Hv) as (o & _ & ->).
  right. exists (VObjectId o). unfold_M.
  destruct (remove_first _ (docs s)) as [n ds]. cbn [snd].
  by destruct (n =? 0)%nat.
Qed.

End App.


(** ** Invariants of the collection under the application *)

Section Invariants.

Implicit Types (e : env) (r : request) (s : store) (d : dict).

(** One request leaves the documents alone, appends a new document, applies
    [$set] to one or removes one. *)
Lemma app_docs e r s :
  docs (app e r s).2 = docs s
  ∨ (∃ b task, TaskCreate.validate b = Ok task ∧ unused (fresh e) s
       ∧ docs (app e r s).2 = (docs s ++ [new_document (utcnow e) (fresh e) task])%list)
  ∨ (∃ b u id, TaskUpdate.validate b = Ok u
       ∧ docs (app e r s).2 = (set_first id (update_dict (utcnow e) u) (docs s)).2)
  ∨ (∃ id, docs (app e r s).2 = (remove_first id (docs s)).2).
Proof.
  destruct r as [| |task_id|b|task_id b|task_id].
  - left. apply app_root_docs.
  - left. apply app_list_docs.
  - left. apply app_GET_docs.
  - rewrite app_POST_docs. destruct (TaskCreate.validate b) as [task|] eqn:Hb; [|by left].
    destruct (create_task_docs (utcnow e) (fresh e) task s) as [->|[Hfree ->]]; [by left|].
    right; left. by exists b, task.
  - rewrite app_PUT_docs. destruct (TaskUpdate.validate b) as [u|] eqn:Hb; [|by left].
    destruct (update_task_docs (utcnow e) task_id u s) as [->|[id ->]]; [by left|].
    right; right; left. by exists b, u, id.
  - rewrite app_DELETE_docs.
    destruct (delete_task_docs task_id s) as [->|[id ->]]; [by left|].
    right; right; right. by exists id.
Qed.

(** A property of documents that creation establishes and [$set] keeps
    holds of every document after a request. *)
Lemma app_Forall (P : dict → Prop) e r s :
  (∀ b task, TaskCreate.validate b = Ok task →
     P (new_document (utcnow e) (fresh e) task)) →
  (∀ b u d, TaskUpdate.validate b = Ok u → P d → P (update_dict (utcnow e) u ∪ d)) →
  Forall P (docs s) → Forall P (docs (app e r s).2).
Proof.
  intros Hnew Hset Hall.
  destruct (app_docs e r s)
    as [->|[(b & task & Hb & _ & ->)|[(b & u & id & Hb & ->)|(id & ->)]]].
  - done.
  - apply Forall_app. split; [done|]. constructor; [|constructor]. by eapply Hnew.
  - pose proof (set_first_Forall2 id (update_dict (utcnow e) u) (docs s)) as H2.
    revert Hall. induction H2 as [|d d' ds ds' Hd _ IH]; [constructor|].
    intros [HP Hall]%Forall_cons. constructor; [|by apply IH].
    destruct Hd as [->| ->]; [done|]. by eapply Hset.
  - rewrite Forall_forall in *. intros d Hd. apply Hall.
    eapply elem_of_sublist; [done|apply remove_first_sublist].
Qed.

Lemma ids_set_first id (set : dict) (ds : list dict) :
  set !! "_id" = None → ids (set_first id set ds).2 = ids ds.
Proof.
  intros Hset. induction ds as [|d ds IH]; cbn [set_first]; [done|].
  destruct (matches id d).
  - cbn [snd ids fmap list_fmap]. by rewrite lookup_union_r.
  - destruct (set_first id set ds) as [n r']. cbn [snd ids fmap list_fmap] in *.
    unfold ids in IH. by rewrite IH.
Qed.

Lemma update_dict_id now u : update_dict now u !! "_id" = None.
Proof. unfold update_dict. rewrite lookup_insert_ne by done. apply update_fields_id. Qed.

Lemma app_NoDup e r s : NoDup (ids (docs s)) → NoDup (ids (docs (app e r s).2)).
Proof.
  intros Hnd.
  destruct (app_docs e r s)
    as [->|[(b & task & Hb & Hfree & ->)|[(b & u & id & Hb & ->)|(id & ->)]]].
  - done.
  - unfold ids. rewrite fmap_app. apply NoDup_app. split_and!; [done| |].
    + intros x Hx [->|[]%elem_of_nil]%elem_of_cons.
      apply list_elem_of_fmap in Hx as (d & Hd & Hin).
      apply existsb_matches_false in Hfree. rewrite Forall_forall in Hfree.
      apply (Hfree d Hin). rewrite <- Hd. unfold new_document.
      by rewrite lookup_insert_eq.
    + apply NoDup_singleton.
  - rewrite ids_set_first; [done|apply update_dict_id].
  - eapply sublist_NoDup; [done|]. apply fmap_sublist, remove_first_sublist.
Qed.

Lemma task_document_new now o task : generated o → task_document (new_document now o task).
Proof.
  intros Hgen. unfold task_document, new_document. split_and!.
  - exists o. by rewrite lookup_insert_eq.
  - rewrite lookup_insert_ne, lookup_insert_eq by done. eauto.
  - do 4 rewrite lookup_insert_ne by done. rewrite lookup_insert_eq. eauto.
  - do 5 rewrite lookup_insert_ne by done. rewrite lookup_insert_eq. eauto.
  - do 6 rewrite lookup_insert_ne by done. rewrite lookup_insert_eq. eauto.
Qed.

Lemma task_document_set now u d : task_document d → task_document (update_dict now u ∪ d).
Proof.
  intros ((o & Hid & Hgen) & Ht & Hs & Hc & Hl). split_and!.
  - exists o. split; [|done]. rewrite lookup_union_r; [done|apply update_dict_id].
  - apply lookup_union_is_Some; by right.
  - apply lookup_union_is_Some; by right.
  - apply lookup_union_is_Some; by right.
  - apply lookup_union_is_Some; by right.
Qed.

(** The collection stays one of task documents with unique identifiers
    as long as the driver generates twelve-byte identifiers. *)
Lemma app_store_ok e r s : generated (fresh e) → store_ok s → store_ok (app e r s).2.
Proof.
  intros Hgen [Hnd Hall]. split; [by apply app_NoDup|].
  apply app_Forall; [| |done].
  - intros b task _. by apply task_document_new.
  - intros b u d _. apply task_document_set.
Qed.

Lemma serve_store_ok (trace : list (env * request)) s :
  Forall (λ er, generated (fresh er.1)) trace → store_ok s → store_ok (serve trace s).
Proof.
  intros Hgen. revert s. induction Hgen as [|[e r] trace He _ IH]; intros s Hs; [done|].
  cbn [serve foldl]. apply IH. by apply app_store_ok.
Qed.

Lemma status_ok_new now o task b :
  TaskCreate.validate b = Ok task → status_ok (new_document now o task).
Proof.
  intros [Hst _]%validate_create_status. exists (TaskCreate.status task).
  split; [|done]. unfold new_document.
  do 4 rewrite lookup_insert_ne by done. by rewrite lookup_insert_eq.
Qed.

Lemma status_ok_set now u d b :
  TaskUpdate.validate b = Ok u → status_ok d → status_ok (update_dict now u ∪ d).
Proof.
  intros Hb (st & Hst & Hin). unfold update_dict.
  destruct (update_fields u !! "status") as [v|] eqn:Hv.
  - assert (∃ st', v = VStr st' ∧ st' ∈ status_values) as (st' & -> & Hin').
    { apply update_fields_Some in Hv as (Hv & _ & Hnn).
      unfold TaskUpdate.model_dump in Hv.
      do 3 rewrite lookup_insert_ne in Hv by done. rewrite lookup_insert_eq in Hv.
      destruct (TaskUpdate.status u) as [st'|] eqn:Hst'; simplify_eq/=.
      exists st'. split; [done|]. by eapply validate_update_status. }
    exists st'. split; [|done]. apply lookup_union_Some_l.
    by rewrite lookup_insert_ne.
  - exists st. split; [|done]. rewrite lookup_union_r; [done|].
    by rewrite lookup_insert_ne.
Qed.

Lemma serve_status_ok (trace : list (env * request)) s :
  Forall status_ok (docs s) → Forall status_ok (docs (serve trace s)).
Proof.
  revert s. induction trace as [|[e r] trace IH]; intros s Hs; [done|].
  cbn [serve foldl]. apply IH. apply app_Forall; [| |done].
  - intros b task Hb. by eapply status_ok_new.
  - intros b u d Hb. by eapply status_ok_set.
Qed.

End Invariants.


(** ** Order of timestamps: [isoformat] is monotone *)

Section Lexicographic.

Lemma lex_compare_refl (xs : list N) : lex_compare xs xs = Eq.
Proof. induction xs as [|x xs IH]; cbn [lex_compare]; [done|]. by rewrite N.compare_refl. Qed.

Lemma lex_compare_trans (xs ys zs : list N) :
  lex_compare xs ys ≠ Gt → lex_compare ys zs ≠ Gt → lex_compare xs zs ≠ Gt.
Proof.
  revert ys zs. induction xs as [|x xs IH]; intros [|y ys] [|z zs]; cbn [lex_compare];
    try done.
  destruct (N.compare_spec x y), (N.compare_spec y z), (N.compare_spec x z);
    subst; try lia; try done. apply IH.
Qed.

Lemma lex_compare_cons_same (x : N) (xs ys : list N) :
  lex_compare (x :: xs) (x :: ys) = lex_compare xs ys.
Proof. cbn [lex_compare]. by rewrite N.compare_refl. Qed.

End Lexicographic.

Lemma datetime_le_refl (t : datetime) : datetime_le t t.
Proof. unfold datetime_le, datetime_compare. by rewrite lex_compare_refl. Qed.

Lemma datetime_le_trans (a b c : datetime) :
  datetime_le a b → datetime_le b c → datetime_le a c.
Proof. apply lex_compare_trans. Qed.

Section Isoformat.

Local Open Scope N_scope.

Lemma digit_code (d : N) : d < 10 → N_of_ascii (ascii_of_N (48 + d)) = 48 + d.
Proof. intros Hd. apply N_ascii_embedding. lia. Qed.

Lemma add_compare_l (p n m : N) : (p + n ?= p + m) = (n ?= m).
Proof.
  destruct (N.compare_spec n m) as [->|?|?].
  - apply N.compare_refl.
  - apply N.compare_lt_iff. lia.
  - apply N.compare_gt_iff. lia.
Qed.

Lemma mod_pow_succ (n : N) (w : nat) :
  n mod 10 ^ N.of_nat (S w)
  = (n / 10 ^ N.of_nat w) mod 10 * 10 ^ N.of_nat w + n mod 10 ^ N.of_nat w.
Proof.
  rewrite Nat2N.inj_succ, N.pow_succ_r', (N.mul_comm 10).
  rewrite N.Div0.mod_mul_r. lia.
Qed.

(** Zero-padded numbers of one width compare as strings the way they
    compare as numbers. *)
Lemma zfill_compare (w : nat) (a b : N) (ra rb : string) :
  str_compare (zfill w a ra) (zfill w b rb)
  = match a mod 10 ^ N.of_nat w ?= b mod 10 ^ N.of_nat w with
    | Eq => str_compare ra rb
    | c => c
    end.
Proof.
  unfold str_compare. induction w as [|w IH].
  - cbn [zfill N.of_nat]. rewrite N.pow_0_r, !N.mod_1_r. done.
  - cbn [zfill code_points lex_compare].
    assert (10 ^ N.of_nat w ≠ 0) as Hpow by (apply N.pow_nonzero; lia).
    pose proof (N.mod_upper_bound (a / 10 ^ N.of_nat w) 10 ltac:(lia)) as Hda.
    pose proof (N.mod_upper_bound (b / 10 ^ N.of_nat w) 10 ltac:(lia)) as Hdb.
    pose proof (N.mod_upper_bound a _ Hpow) as Ha.
    pose proof (N.mod_upper_bound b _ Hpow) as Hb.
    rewrite !digit_code by done. rewrite IH, !mod_pow_succ.
    set (da := (a / 10 ^ N.of_nat w) mod 10) in *.
    set (db := (b / 10 ^ N.of_nat w) mod 10) in *.
    set (p := 10 ^ N.of_nat w) in *.
    set (x := a mod p) in *. set (y := b mod p) in *.
    rewrite add_compare_l.
    destruct (N.compare_spec da db) as [->|Hlt|Hgt].
    + by rewrite add_compare_l.
    + assert (da * p + x < db * p + y) as ->%N.compare_lt_iff by nia. done.
    + assert (db * p + y < da * p + x) as ->%N.compare_gt_iff by nia. done.
Qed.

Lemma str_compare_cons (c : ascii) (a b : string) :
  str_compare (String c a) (String c b) = str_compare a b.
Proof. unfold str_compare. cbn [code_points]. apply lex_compare_cons_same. Qed.

Lemma fraction_compare (a b : N) :
  a < 1000000 → b < 1000000 →
  str_compare (fraction a) (fraction b) = (a ?= b).
Proof.
  intros Ha Hb. unfold fraction.
  destruct (N.eqb_spec a 0) as [->|Ha0], (N.eqb_spec b 0) as [->|Hb0].
  - done.
  - assert (0 < b) as ->%N.compare_lt_iff by lia. done.
  - assert (0 < a) as ->%N.compare_gt_iff by lia. done.
  - rewrite str_compare_cons, zfill_compare.
    change (10 ^ N.of_nat 6) with 1000000. rewrite !N.mod_small by done.
    unfold str_compare. cbn [code_points lex_compare].
    by destruct (a ?= b).
Qed.

(** [str] comparison of two timestamps agrees with the comparison of the
    instants. *)
Lemma isoformat_compare (a b : datetime) :
  datetime_ok a → datetime_ok b →
  str_compare (isoformat a) (isoformat b) = datetime_compare a b.
Proof.
  intros (Hy & Hmo & Hd & Hh & Hmi & Hs & Hus) (Hy' & Hmo' & Hd' & Hh' & Hmi' & Hs' & Hus').
  unfold isoformat.
  unfold datetime_compare, datetime_fields. cbn [lex_compare].
  repeat (rewrite zfill_compare; rewrite ?str_compare_cons).
  rewrite fraction_compare by done.
  change (10 ^ N.of_nat 4) with 10000. change (10 ^ N.of_nat 2) with 100.
  rewrite !N.mod_small by lia.
  destruct (microsecond a ?= microsecond b); reflexivity.
Qed.

Lemma isoformat_le (a b : datetime) :
  datetime_ok a → datetime_ok b → datetime_le a b →
  str_le (isoformat a) (isoformat b).
Proof. intros Ha Hb Hle. unfold str_le. by rewrite isoformat_compare. Qed.

End Isoformat.

Section Timestamps.

Implicit Types (t : datetime) (d : dict) (s : store).

Lemma stamped_later t t' d : datetime_le t t' → stamped t d → stamped t' d.
Proof.
  intros Hle (c & u & Hc & Hu & Hca & Hlu & Hcu & Hut).
  exists c, u. split_and!; try done. by eapply datetime_le_trans.
Qed.

Lemma stamped_new t o task : datetime_ok t → stamped t (new_document t o task).
Proof.
  intros Hok. exists t, t. unfold new_document.
  split_and!; [done|done|done|done|apply datetime_le_refl..].
Qed.

Lemma stamped_set t u d : datetime_ok t → stamped t d → stamped t (update_dict t u ∪ d).
Proof.
  intros Hok (c & lu & Hc & Hu & Hca & Hlu & Hcu & Hut).
  exists c, t. split_and!; [done|done| | | |].
  - rewrite lookup_union_r; [done|]. unfold update_dict.
    rewrite lookup_insert_ne by done. apply update_fields_created_at.
  - apply lookup_union_Some_l. unfold update_dict. by rewrite lookup_insert_eq.
  - by eapply datetime_le_trans.
  - apply datetime_le_refl.
Qed.

Lemma app_stamped t e r s :
  datetime_ok (utcnow e) → datetime_le t (utcnow e) →
  Forall (stamped t) (docs s) → Forall (stamped (utcnow e)) (docs (app e r s).2).
Proof.
  intros Hok Hle Hall. apply app_Forall.
  - intros b task _. by apply stamped_new.
  - intros b u d _. by apply stamped_set.
  - eapply Forall_impl; [done|]. intros d. by apply stamped_later.
Qed.

Lemma serve_stamped (trace : list (env * request)) t s :
  clock_from t trace → Forall (stamped t) (docs s) →
  ∃ t', Forall (stamped t') (docs (serve trace s)).
Proof.
  revert t s. induction trace as [|[e r] trace IH]; intros t s Hclock Hall.
  - by exists t.
  - destruct Hclock as (Hok & Hle & Hclock). cbn [serve foldl].
    apply (IH (utcnow e)); [done|]. by eapply app_stamped.
Qed.

End Timestamps.

(** * The contract *)

Lemma app_POST_fresh (e : env) (b : body) (task : TaskCreate.t) (s : store) :
  TaskCreate.validate b = Ok task → unused (fresh e) s →
  (app e (POST_tasks b) s).1
  = Ok (JSONObject (new_response (utcnow e) (fresh e) task))
  ∧ docs (app e (POST_tasks b) s).2
    = (docs s ++ [new_document (utcnow e) (fresh e) task])%list.
Proof.
  intros Hb Hfree. rewrite app_POST_docs. unfold app. rewrite Hb.
  destruct (create_task_fresh (utcnow e) (fresh e) task s Hfree) as [Hr Hd].
  split; [|done]. unfold mbind at 1. unfold M_bind, lift.
  unfold mbind, M_bind. destruct (create_task _ _ _ _) as [r s'].
  cbn [fst] in Hr. by rewrite Hr.
Qed.

Lemma dom_new_response (now : datetime) (o : ObjectId) (task : TaskCreate.t) :
  dom (new_response now o task) = response_keys.
Proof.
  unfold new_response, response_keys. rewrite !dom_insert_L, dom_empty_L.
  set_solver.
Qed.

Lemma store1_docs :
  docs Sample.store1 = [new_document Sample.t0 Sample.oid Sample.task1].
Proof. by vm_compute. Qed.

Lemma store1_ok : store_ok Sample.store1.
Proof.
  unfold store_ok. rewrite store1_docs. split.
  - apply NoDup_singleton.
  - constructor; [|constructor]. by apply task_document_new.
Qed.

(** ** The scenarios of the specification, evaluated *)

Example scenario_create :
  (app Sample.e0 (POST_tasks Sample.new_task) empty_store).1
  = Ok (JSONObject (list_to_map
      [("_id", VStr "64f0c2a1b3d4e5f60718293a"); ("title", VStr "Write report");
       ("description", VNone); ("deadline", VNone); ("status", VStr "not-done");
       ("created_at", VStr "2024-05-17T09:03:00");
       ("last_updated", VStr "2024-05-17T09:03:00")])).
Proof. by vm_compute. Qed.

Example scenario_empty_title :
  (app Sample.e0 (POST_tasks {[ "title" := JString EmptyString ]}) empty_store).1
  = Raise RequestValidationError.
Proof. by vm_compute. Qed.

Example scenario_invalid_id :
  (app Sample.e1 (GET_task "not-a-valid-id") Sample.store1).1
  = Raise (HTTPException 400 "Invalid task ID format").
Proof. by vm_compute. Qed.

Example scenario_update_unknown :
  (app Sample.e1 (PUT_task Sample.other_str {[ "status" := JString "done" ]})
       Sample.store1).1
  = Raise (HTTPException 404 "Task not found").
Proof. by vm_compute. Qed.

Example scenario_update_empty :
  (app Sample.e1 (PUT_task Sample.oid_str ∅) Sample.store1).1
  = Raise (HTTPException 400 "No fields to update").
Proof. by vm_compute. Qed.

Example scenario_update :
  (app Sample.e1 (PUT_task Sample.oid_str {[ "status" := JString "done" ]})
       Sample.store1).1
  = Ok (JSONObject (list_to_map
      [("_id", VStr "64f0c2a1b3d4e5f60718293a"); ("title", VStr "Write report");
       ("description", VNone); ("deadline", VNone); ("status", VStr "done");
       ("created_at", VStr "2024-05-17T09:03:00");
       ("last_updated", VStr "2024-05-17T09:03:00.001250")])).
Proof. by vm_compute. Qed.

Example scenario_delete_twice :
  (app Sample.e1 (DELETE_task Sample.oid_str) Sample.store1).1
  = Ok (JSONObject (list_to_map
      [("message", VStr "Task deleted successfully");
       ("id", VStr "64f0c2a1b3d4e5f60718293a")]))
  ∧ (app Sample.e1 (DELETE_task Sample.oid_str)
       (app Sample.e1 (DELETE_task Sample.oid_str) Sample.store1).2).1
    = Raise (HTTPException 404 "Task not found").
Proof. split; by vm_compute. Qed.

(** A body that fails validation is refused before the handler runs, also
    when the identifier is not well formed. *)
Example scenario_invalid_body :
  app Sample.e1 (PUT_task "not-a-valid-id" {[ "status" := JString "finished" ]})
      Sample.store1
  = (Raise RequestValidationError, Sample.store1).
Proof. by vm_compute. Qed.

(** ** Create *)

(** C1: for a body that validates against [TaskCreate], and an identifier from
    the driver that no stored document carries, [POST /tasks] returns the
    seven-key serialization of the new document: ["created_at"] and
    ["last_updated"] are both the clock reading in ISO format, ["status"] is
    "not-done" when the body has no "status" key, ["_id"] is the string form
    of the new identifier, and the document is stored under that
    identifier. *)
Theorem create_task_response (e : env) (b : body) (task : TaskCreate.t) (s : store) :
  TaskCreate.validate b = Ok task → unused (fresh e) s →
  ∃ r doc,
    (app e (POST_tasks b) s).1 = Ok (JSONObject r)
    ∧ r !! "created_at" = Some (VStr (isoformat (utcnow e)))
    ∧ r !! "last_updated" = r !! "created_at"
    ∧ (b !! "status" = None → r !! "status" = Some (VStr "not-done"))
    ∧ r !! "_id" = Some (VStr (ObjectId_str (fresh e)))
    ∧ dom r = response_keys
    ∧ r !! "title" = Some (VStr (TaskCreate.title task))
    ∧ docs (app e (POST_tasks b) s).2 = (docs s ++ [doc])%list
    ∧ doc !! "_id" = Some (VObjectId (fresh e))
    ∧ task_helper (Some doc) = Ok r.
Proof.
  intros Hb Hfree.
  destruct (app_POST_fresh e b task s Hb Hfree) as [Hr Hd].
  exists (new_response (utcnow e) (fresh e) task),
         (new_document (utcnow e) (fresh e) task).
  split_and!; [exact Hr|done|done| |done| |done|exact Hd|done|].
  - intros Hst. apply validate_create_status in Hb as [_ Hb].
    unfold new_response. by rewrite (Hb Hst).
  - apply dom_new_response.
  - apply task_helper_new.
Qed.

Lemma create_task_response_witness :
  TaskCreate.validate Sample.new_task = Ok Sample.task1
  ∧ unused (fresh Sample.e0) empty_store
  ∧ ∃ r,
      (app Sample.e0 (POST_tasks Sample.new_task) empty_store).1 = Ok (JSONObject r)
      ∧ r !! "created_at" = Some (VStr "2024-05-17T09:03:00")
      ∧ r !! "last_updated" = Some (VStr "2024-05-17T09:03:00")
      ∧ r !! "status" = Some (VStr "not-done")
      ∧ r !! "_id" = Some (VStr Sample.oid_str).
Proof.
  assert (TaskCreate.validate Sample.new_task = Ok Sample.task1) as Hb
    by reflexivity.
  assert (unused (fresh Sample.e0) empty_store) as Hfree by reflexivity.
  split_and!; [exact Hb|exact Hfree|].
  destruct (create_task_response Sample.e0 Sample.new_task Sample.task1 empty_store
              Hb Hfree)
    as (r & doc & Hr & Hc & Hl & Hs & Hid & _).
  exists r. split_and!; [exact Hr|exact Hc|by rewrite Hl|by apply Hs|exact Hid].
Defined.

(** ** Update *)

(** C2: [update_task] keeps every document in its place, and in each of them
    every field that the payload did not set, except ["last_updated"], keeps
    its value; ["created_at"] and ["_id"] keep theirs whatever the payload. *)
Theorem update_task_frame (now : datetime) (task_id : string)
    (u : TaskUpdate.t) (s : store) :
  Forall2 (λ d d' : dict,
      (∀ k, k ∉ TaskUpdate.fields_set u → k ≠ "last_updated" → d' !! k = d !! k)
      ∧ d' !! "created_at" = d !! "created_at"
      ∧ d' !! "_id" = d !! "_id")
    (docs s) (docs (update_task now task_id u s).2).
Proof.
  destruct (update_task_docs now task_id u s) as [->|[id ->]].
  - apply Forall2_same_length_lookup_2; [done|].
    intros i d d' H1 H2. by simplify_eq.
  - eapply Forall2_impl; [apply set_first_Forall2|].
    intros d d' [-> | ->]; [done|].
    split_and!.
    + intros k Hk Hlast. rewrite lookup_union_r; [done|].
      rewrite lookup_insert_ne by done. by apply update_fields_unset.
    + rewrite lookup_union_r; [done|]. rewrite lookup_insert_ne by done.
      apply update_fields_created_at.
    + rewrite lookup_union_r; [done|]. rewrite lookup_insert_ne by done.
      apply update_fields_id.
Qed.

(** C3, as stated, fails: with an identifier that is not well formed the
    update with no field to apply is refused for the identifier, not for the
    empty payload. *)
Lemma empty_update_invalid_id :
  update_fields Sample.null_description = ∅
  ∧ (update_task Sample.t1 "not-a-valid-id" Sample.null_description Sample.store1).1
    = Raise (HTTPException 400 "Invalid task ID format")
  ∧ (update_task Sample.t1 "not-a-valid-id" Sample.null_description Sample.store1).1
    ≠ Raise (HTTPException 400 "No fields to update").
Proof. split_and!; [by vm_compute|reflexivity|discriminate]. Qed.

(** C3, amended: an update whose payload leaves no field to apply (absent
    and null fields dropped) is refused with a 400 and the store is as it was,
    its log of calls included; the detail is "No fields to update" when the
    identifier is well formed and "Invalid task ID format" when it is not. *)
Theorem empty_update_rejected (now : datetime) (task_id : string)
    (u : TaskUpdate.t) (s : store) :
  update_fields u = ∅ →
  update_task now task_id u s
  = (Raise (HTTPException 400
       (if is_valid task_id then "No fields to update" else "Invalid task ID format")),
     s).
Proof.
  intros Hu. unfold update_task. fold (update_fields u).
  destruct (is_valid task_id); cbn [negb]; [|done].
  by rewrite bool_decide_eq_true_2.
Qed.

Lemma empty_update_rejected_witness :
  update_fields Sample.null_description = ∅
  ∧ update_task Sample.t1 Sample.oid_str Sample.null_description Sample.store1
    = (Raise (HTTPException 400 "No fields to update"), Sample.store1).
Proof.
  assert (update_fields Sample.null_description = ∅) as Hu by (by vm_compute).
  split; [exact Hu|].
  exact (empty_update_rejected Sample.t1 Sample.oid_str Sample.null_description
           Sample.store1 Hu).
Defined.

(** C4: on [PUT /tasks/{id}] a field given as [null] has the effect of the
    field left out, on the response and on the store; and no update turns a
    field of a stored document into [None]. *)
Theorem null_field_is_omitted (e : env) (task_id k : string) (b : body) (s : store) :
  app e (PUT_task task_id (<[k := JNull]> b)) s
  = app e (PUT_task task_id (delete k b)) s
  ∧ Forall2 (λ d d' : dict, ∀ f, d' !! f = Some VNone → d !! f = Some VNone)
      (docs s) (docs (app e (PUT_task task_id b) s).2).
Proof.
  split.
  - unfold app, TaskUpdate.validate. rewrite !optional_null_absent.
    destruct (optional_str_field length_1_200 _) as [title|] eqn:Ht; [|done].
    destruct (optional_str_field unconstrained (_ !! "description"))
      as [descr|] eqn:Hd; [|done].
    destruct (optional_str_field unconstrained (_ !! "deadline"))
      as [dl|] eqn:Hl; [|done].
    destruct (optional_str_field status_pattern _) as [st|] eqn:Hs; [|done].
    cbn [mbind result_bind]. unfold mbind at 1 3. unfold M_bind, lift.
    by rewrite (update_task_ext _ _ _ _ (update_fields_null_absent k b _ _ _ _ Ht Hd Hl Hs)).
  - rewrite app_PUT_docs. destruct (TaskUpdate.validate b) as [u|].
    + destruct (update_task_docs (utcnow e) task_id u s) as [->|[id ->]].
      * apply Forall2_same_length_lookup_2; [done|].
        intros i d d' ? ?. by simplify_eq.
      * eapply Forall2_impl; [apply set_first_Forall2|].
        intros d d' [-> | ->]; [done|]. intros f Hf.
        apply lookup_union_Some_raw in Hf as [Hf|[_ Hf]]; [|done].
        exfalso. apply lookup_insert_Some in Hf as [[_ [=]]|[_ Hf]].
        by apply update_fields_not_None in Hf.
    + apply Forall2_same_length_lookup_2; [done|].
      intros i d d' ? ?. by simplify_eq.
Qed.

(** ** Identifiers *)

(** C5: for a well-formed identifier, [get_task], [update_task] with a
    payload that has a field to apply, and [delete_task] each raise the 404
    "Task not found" in a store where the identifier names no document, and
    the documents of the store stay as they were; in a store with unique
    identifiers where it names one, [delete_task] succeeds and a second
    [delete_task] raises the 404. *)
Theorem unknown_identifier_not_found (task_id : string) :
  is_valid task_id = true →
  (∀ s, stored task_id s = false →
     ((get_task task_id s).1 = Raise (HTTPException 404 "Task not found")
      ∧ docs (get_task task_id s).2 = docs s)
     ∧ (∀ now u, update_fields u ≠ ∅ →
          (update_task now task_id u s).1 = Raise (HTTPException 404 "Task not found")
          ∧ docs (update_task now task_id u s).2 = docs s)
     ∧ ((delete_task task_id s).1 = Raise (HTTPException 404 "Task not found")
        ∧ docs (delete_task task_id s).2 = docs s))
  ∧ (∀ s, NoDup (ids (docs s)) → stored task_id s = true →
       (delete_task task_id s).1
       = Ok (<["message" := VStr "Task deleted successfully"]> (<["id" := VStr task_id]> ∅))
       ∧ (delete_task task_id (delete_task task_id s).2).1
         = Raise (HTTPException 404 "Task not found")).
Proof.
  intros Hv. split.
  - intros s Hs. split_and!.
    + by apply get_task_missing.
    + apply get_task_docs.
    + intros now u Hu. by apply update_task_missing.
    + by apply delete_task_missing.
    + by apply delete_task_missing.
  - intros s Hnd Hs.
    destruct (delete_task_stored _ _ Hv Hs) as (o & Ho & Hr & Hd).
    split; [done|]. apply delete_task_missing; [done|].
    unfold stored. rewrite Ho, Hd. by apply remove_first_gone.
Qed.

Lemma unknown_identifier_not_found_witness :
  (is_valid Sample.other_str = true
   ∧ stored Sample.other_str Sample.store1 = false
   ∧ update_fields Sample.set_done ≠ ∅
   ∧ (get_task Sample.other_str Sample.store1).1
     = Raise (HTTPException 404 "Task not found")
   ∧ (update_task Sample.t1 Sample.other_str Sample.set_done Sample.store1).1
     = Raise (HTTPException 404 "Task not found")
   ∧ (delete_task Sample.other_str Sample.store1).1
     = Raise (HTTPException 404 "Task not found"))
  ∧ (is_valid Sample.oid_str = true
     ∧ NoDup (ids (docs Sample.store1))
     ∧ stored Sample.oid_str Sample.store1 = true
     ∧ (delete_task Sample.oid_str Sample.store1).1
       = Ok (<["message" := VStr "Task deleted successfully"]>
            (<["id" := VStr Sample.oid_str]> ∅))
     ∧ (delete_task Sample.oid_str (delete_task Sample.oid_str Sample.store1).2).1
       = Raise (HTTPException 404 "Task not found")).
Proof.
  assert (update_fields Sample.set_done ≠ ∅) as Hu by (by vm_compute).
  assert (NoDup (ids (docs Sample.store1))) as Hnd.
  { rewrite store1_docs. apply NoDup_singleton. }
  split.
  - destruct (unknown_identifier_not_found Sample.other_str) as [Hmissing _];
      [reflexivity|].
    destruct (Hmissing Sample.store1) as ([Hget _] & Hupd & [Hdel _]); [reflexivity|].
    split_and!; [reflexivity|reflexivity|exact Hu|exact Hget| |exact Hdel].
    apply (Hupd Sample.t1 Sample.set_done Hu).
  - destruct (unknown_identifier_not_found Sample.oid_str) as [_ Htwice];
      [reflexivity|].
    split_and!; [reflexivity|exact Hnd|reflexivity|..];
      apply (Htwice Sample.store1 Hnd); reflexivity.
Defined.

(** C6: for an identifier string that [ObjectId.is_valid] refuses, [get_task],
    [update_task] and [delete_task] each raise the 400 "Invalid task ID format"
    and leave the store as it was, its log of calls included: no call reached
    the collection. *)
Theorem invalid_identifier_rejected (now : datetime) (task_id : string)
    (u : TaskUpdate.t) (s : store) :
  is_valid task_id = false →
  get_task task_id s = (Raise (HTTPException 400 "Invalid task ID format"), s)
  ∧ update_task now task_id u s = (Raise (HTTPException 400 "Invalid task ID format"), s)
  ∧ delete_task task_id s = (Raise (HTTPException 400 "Invalid task ID format"), s).
Proof.
  intros Hv. unfold get_task, update_task, delete_task. rewrite Hv. done.
Qed.

Lemma invalid_identifier_rejected_witness :
  is_valid "not-a-valid-id" = false
  ∧ get_task "not-a-valid-id" Sample.store1
    = (Raise (HTTPException 400 "Invalid task ID format"), Sample.store1)
  ∧ update_task Sample.t1 "not-a-valid-id" Sample.set_done Sample.store1
    = (Raise (HTTPException 400 "Invalid task ID format"), Sample.store1)
  ∧ delete_task "not-a-valid-id" Sample.store1
    = (Raise (HTTPException 400 "Invalid task ID format"), Sample.store1).
Proof.
  split; [reflexivity|].
  apply (invalid_identifier_rejected Sample.t1 "not-a-valid-id" Sample.set_done
           Sample.store1).
  reflexivity.
Defined.

(** The same on the routes: [PUT] reaches the handler when its body
    validates. *)
Lemma invalid_identifier_routes (e : env) (task_id : string) (s : store) :
  is_valid task_id = false →
  app e (GET_task task_id) s = (Raise (HTTPException 400 "Invalid task ID format"), s)
  ∧ app e (DELETE_task task_id) s
    = (Raise (HTTPException 400 "Invalid task ID format"), s)
  ∧ ∀ b u, TaskUpdate.validate b = Ok u →
      app e (PUT_task task_id b) s
      = (Raise (HTTPException 400 "Invalid task ID format"), s).
Proof.
  intros Hv. unfold app, get_task, delete_task. rewrite Hv. split_and!; [done|done|].
  intros b u ->. unfold update_task. by rewrite Hv.
Qed.

(** ** Invariants *)

(** C7: after any sequence of requests served from the empty collection,
    every stored document has a ["status"] among done, pending, not-done and
    dropped; and the models accept no other: a validated [TaskCreate] has one
    of them, and so has a validated [TaskUpdate] that sets one. *)
Theorem status_always_enumerated (trace : list (env * request)) :
  Forall (λ d, ∃ st, d !! "status" = Some (VStr st) ∧ st ∈ status_values)
    (docs (serve trace empty_store))
  ∧ (∀ b task, TaskCreate.validate b = Ok task →
       TaskCreate.status task ∈ status_values)
  ∧ (∀ b u st, TaskUpdate.validate b = Ok u → TaskUpdate.status u = Some st →
       st ∈ status_values).
Proof.
  split_and!.
  - apply (serve_status_ok trace empty_store). constructor.
  - intros b task Hb. by apply validate_create_status in Hb as [? _].
  - intros b u st. apply validate_update_status.
Qed.

(** C8: when the clock readings of a sequence of requests served from the
    empty collection never go back, every stored document has
    ["created_at"] and ["last_updated"] strings with the first not after the
    second, both as the strings compare and as the instants they are the
    ISO format of. *)
Theorem created_at_le_last_updated (trace : list (env * request)) :
  clock_monotone trace →
  Forall (λ d, ∃ c u,
            d !! "created_at" = Some (VStr (isoformat c))
            ∧ d !! "last_updated" = Some (VStr (isoformat u))
            ∧ datetime_le c u
            ∧ str_le (isoformat c) (isoformat u))
    (docs (serve trace empty_store)).
Proof.
  intros Hclock.
  assert (∃ t, Forall (stamped t) (docs (serve trace empty_store))) as [t Hall].
  { destruct trace as [|[e r] trace].
    - exists {| year := 1; month := 1; day := 1;
                hour := 0; minute := 0; second := 0; microsecond := 0 |}.
      constructor.
    - destruct Hclock as [Hok Hclock].
      apply (serve_stamped _ (utcnow e)); [|constructor].
      cbn [clock_from fst]. split_and!; [done|apply datetime_le_refl|done]. }
  eapply Forall_impl; [exact Hall|].
  intros d (c & u & Hc & Hu & Hca & Hlu & Hcu & _).
  exists c, u. split_and!; try done. by apply isoformat_le.
Qed.

Lemma created_at_le_last_updated_witness :
  clock_monotone Sample.trace1
  ∧ Forall (λ d, ∃ c u,
              d !! "created_at" = Some (VStr (isoformat c))
              ∧ d !! "last_updated" = Some (VStr (isoformat u))
              ∧ datetime_le c u
              ∧ str_le (isoformat c) (isoformat u))
      (docs (serve Sample.trace1 empty_store)).
Proof.
  assert (clock_monotone Sample.trace1) as Hclock.
  { unfold clock_monotone, Sample.trace1, clock_from, datetime_ok. cbn.
    split_and!; try lia; by vm_compute. }
  split; [exact Hclock|].
  exact (created_at_le_last_updated Sample.trace1 Hclock).
Defined.

(** ** Round trips *)

(** C9: for a body that validates against [TaskCreate] and a generated
    identifier that no stored document carries, [GET /tasks/{id}] with the
    ["_id"] of the response of [POST /tasks], served right after it, returns
    the same dictionary. *)
Theorem create_then_get (e e' : env) (b : body) (task : TaskCreate.t) (s : store) :
  TaskCreate.validate b = Ok task → unused (fresh e) s → generated (fresh e) →
  ∃ r id,
    (app e (POST_tasks b) s).1 = Ok (JSONObject r)
    ∧ r !! "_id" = Some (VStr id)
    ∧ (app e' (GET_task id) (app e (POST_tasks b) s).2).1 = Ok (JSONObject r).
Proof.
  intros Hb Hfree Hgen.
  destruct (app_POST_fresh e b task s Hb Hfree) as [Hr Hd].
  exists (new_response (utcnow e) (fresh e) task), (ObjectId_str (fresh e)).
  split_and!; [done|done|].
  set (s' := (app e (POST_tasks b) s).2) in *.
  assert ((get_task (ObjectId_str (fresh e)) s').1
          = Ok (new_response (utcnow e) (fresh e) task)) as Hget.
  { rewrite (get_task_found _ (fresh e) (new_document (utcnow e) (fresh e) task)).
    - apply task_helper_new.
    - by apply ObjectId_of_str_str.
    - intros Hnil. pose proof (is_valid_str _ Hgen) as Hv. by rewrite Hnil in Hv.
    - rewrite Hd. apply find_app_new; [done|].
      unfold new_document. by rewrite lookup_insert_eq. }
  unfold app, mbind, M_bind. destruct (get_task _ s') as [r' s''].
  cbn [fst] in Hget. by rewrite Hget.
Qed.

Lemma create_then_get_witness :
  TaskCreate.validate Sample.new_task = Ok Sample.task1
  ∧ unused (fresh Sample.e0) empty_store
  ∧ generated (fresh Sample.e0)
  ∧ ∃ r id,
      (app Sample.e0 (POST_tasks Sample.new_task) empty_store).1 = Ok (JSONObject r)
      ∧ r !! "_id" = Some (VStr id)
      ∧ (app Sample.e1 (GET_task id)
           (app Sample.e0 (POST_tasks Sample.new_task) empty_store).2).1
        = Ok (JSONObject r).
Proof.
  split_and!; [reflexivity|reflexivity|reflexivity|].
  apply (create_then_get Sample.e0 Sample.e1 Sample.new_task Sample.task1 empty_store);
    reflexivity.
Defined.

(** C10: in a store of task documents with unique identifiers, the ["_id"]
    that [task_helper] writes for a stored document passes
    [ObjectId.is_valid], and [get_task] on it returns the serialization of
    that document. *)
Theorem served_id_usable (s : store) (task : dict) :
  store_ok s → task ∈ docs s →
  ∃ r id,
    task_helper (Some task) = Ok r
    ∧ r !! "_id" = Some (VStr id)
    ∧ is_valid id = true
    ∧ (get_task id s).1 = Ok r.
Proof.
  intros [Hnd Hall] Hin.
  rewrite Forall_forall in Hall. destruct (Hall _ Hin)
    as ((o & Hid & Hgen) & [ti Hti] & [st Hst] & [ca Hca] & [lu Hlu]).
  assert (task_helper (Some task)
          = Ok (<["_id" := VStr (ObjectId_str o)]>
               (<["title" := ti]>
               (<["description" := get task "description"]>
               (<["deadline" := get task "deadline"]>
               (<["status" := st]>
               (<["created_at" := ca]>
               (<["last_updated" := lu]> ∅)))))))) as Hhelper.
  { unfold task_helper, getitem. by rewrite Hid, Hti, Hst, Hca, Hlu. }
  eexists _, (ObjectId_str o). split_and!.
  - exact Hhelper.
  - by rewrite lookup_insert_eq.
  - by apply is_valid_str.
  - rewrite <- Hhelper. apply (get_task_found _ o).
    + by apply ObjectId_of_str_str.
    + intros Hnil. pose proof (is_valid_str _ Hgen) as Hv. by rewrite Hnil in Hv.
    + by apply find_unique.
Qed.

Lemma served_id_usable_witness :
  store_ok Sample.store1
  ∧ new_document Sample.t0 Sample.oid Sample.task1 ∈ docs Sample.store1
  ∧ ∃ r id,
      task_helper (Some (new_document Sample.t0 Sample.oid Sample.task1)) = Ok r
      ∧ r !! "_id" = Some (VStr id)
      ∧ is_valid id = true
      ∧ (get_task id Sample.store1).1 = Ok r.
Proof.
  assert (new_document Sample.t0 Sample.oid Sample.task1 ∈ docs Sample.store1) as Hin.
  { rewrite store1_docs. apply list_elem_of_singleton. reflexivity. }
  split_and!; [exact store1_ok|exact Hin|].
  exact (served_id_usable Sample.store1 _ store1_ok Hin).
Defined.

(** * Further properties *)

(** ** Serialization and listing *)

Section Serialization.

Implicit Types (d r : dict) (s : store).

Lemma task_helper_Ok d id ti st ca lu :
  d !! "_id" = Some id → d !! "title" = Some ti → d !! "status" = Some st →
  d !! "created_at" = Some ca → d !! "last_updated" = Some lu →
  task_helper (Some d) = Ok (serialized d id ti st ca lu).
Proof. intros H1 H2 H3 H4 H5. unfold task_helper, getitem. by rewrite H1, H2, H3, H4, H5. Qed.

Lemma task_helper_inv d r :
  task_helper (Some d) = Ok r →
  ∃ id ti st ca lu,
    d !! "_id" = Some id ∧ d !! "title" = Some ti ∧ d !! "status" = Some st
    ∧ d !! "created_at" = Some ca ∧ d !! "last_updated" = Some lu
    ∧ r = serialized d id ti st ca lu.
Proof.
  unfold task_helper, getitem.
  destruct (d !! "_id") as [id|]; [|discriminate].
  destruct (d !! "title") as [ti|]; [|discriminate].
  destruct (d !! "status") as [st|]; [|discriminate].
  destruct (d !! "created_at") as [ca|]; [|discriminate].
  destruct (d !! "last_updated") as [lu|]; [|discriminate].
  cbn. intros [= <-]. by exists id, ti, st, ca, lu.
Qed.

Lemma task_helper_serializable d :
  serializable d → ∃ r, task_helper (Some d) = Ok r.
Proof.
  intros ([id H1] & [ti H2] & [st H3] & [ca H4] & [lu H5]).
  eexists. by apply task_helper_Ok.
Qed.

Lemma task_helper_KeyError d :
  ¬ serializable d → ∃ k, task_helper (Some d) = Raise (KeyError k) ∧ d !! k = None.
Proof.
  intros Hns. unfold task_helper, getitem.
  destruct (d !! "_id") as [id|] eqn:H1; [|by exists "_id"].
  destruct (d !! "title") as [ti|] eqn:H2; [|by exists "title"].
  destruct (d !! "status") as [st|] eqn:H3; [|by exists "status"].
  destruct (d !! "created_at") as [ca|] eqn:H4; [|by exists "created_at"].
  destruct (d !! "last_updated") as [lu|] eqn:H5; [|by exists "last_updated"].
  exfalso. apply Hns. unfold serializable. rewrite H1, H2, H3, H4, H5. eauto 10.
Qed.

Lemma serializable_dec d : serializable d ∨ ¬ serializable d.
Proof. unfold serializable. destruct (decide (is_Some (d !! "_id") ∧ is_Some (d !! "title") ∧ is_Some (d !! "status") ∧ is_Some (d !! "created_at") ∧ is_Some (d !! "last_updated"))); auto. Qed.

Lemma dom_serialized d id ti st ca lu : dom (serialized d id ti st ca lu) = response_keys.
Proof.
  unfold serialized, response_keys. rewrite !dom_insert_L, dom_empty_L. set_solver.
Qed.


(** [mapM] of [task_helper] over a collection. *)
Lemma mapM_task_helper_Ok (ds : list dict) :
  Forall serializable ds →
  ∃ l, mapM (λ task, task_helper (Some task)) ds = Ok l
       ∧ Forall2 (λ d r, task_helper (Some d) = Ok r) ds l.
Proof.
  induction 1 as [|d ds Hd _ (l & Hl & Hall)].
  - exists []. split; [done|constructor].
  - destruct (task_helper_serializable d Hd) as [r Hr].
    exists (r :: l). cbn [mapM]. rewrite Hr. cbn [mbind result_bind]. rewrite Hl.
    split; [done|by constructor].
Qed.

Lemma mapM_task_helper_KeyError (ds : list dict) :
  Exists (λ d, ¬ serializable d) ds →
  ∃ k, mapM (λ task, task_helper (Some task)) ds = Raise (KeyError k).
Proof.
  induction ds as [|d ds IH]; intros Hex; [by apply Exists_nil in Hex|].
  cbn [mapM]. destruct (serializable_dec d) as [Hd|Hd].
  - destruct (task_helper_serializable d Hd) as [r ->]. cbn [mbind result_bind].
    apply Exists_cons in Hex as [?|Hex]; [done|].
    destruct (IH Hex) as [k ->]. by exists k.
  - destruct (task_helper_KeyError d Hd) as (k & -> & _). by exists k.
Qed.

End Serialization.

(** X1: [task_helper] succeeds exactly on the documents that have ["_id"],
    ["title"], ["status"], ["created_at"] and ["last_updated"]: then it
    returns the seven keys, with ["_id"] the [str] of the stored identifier
    and [None] for a ["description"] or ["deadline"] the document lacks;
    otherwise it raises the [KeyError] of a key the document lacks. *)
Theorem task_helper_total_on_serializable (d : dict) :
  (serializable d →
     ∃ r id, task_helper (Some d) = Ok r
       ∧ dom r = response_keys
       ∧ d !! "_id" = Some id ∧ r !! "_id" = Some (VStr (py_str id))
       ∧ r !! "title" = d !! "title"
       ∧ r !! "status" = d !! "status"
       ∧ r !! "created_at" = d !! "created_at"
       ∧ r !! "last_updated" = d !! "last_updated"
       ∧ r !! "description" = Some (default VNone (d !! "description"))
       ∧ r !! "deadline" = Some (default VNone (d !! "deadline")))
  ∧ (¬ serializable d →
       ∃ k, task_helper (Some d) = Raise (KeyError k) ∧ d !! k = None).
Proof.
  split; [|apply task_helper_KeyError].
  intros ([id H1] & [ti H2] & [st H3] & [ca H4] & [lu H5]).
  exists (serialized d id ti st ca lu), id.
  split_and!; [by apply task_helper_Ok|apply dom_serialized|done|..];
    unfold serialized, get; by rewrite ?H2, ?H3, ?H4, ?H5.
Qed.

Lemma task_helper_total_on_serializable_witness :
  serializable (new_document Sample.t0 Sample.oid Sample.task1)
  ∧ ∃ r, task_helper (Some (new_document Sample.t0 Sample.oid Sample.task1)) = Ok r
         ∧ r !! "_id" = Some (VStr Sample.oid_str)
         ∧ r !! "description" = Some VNone.
Proof.
  assert (serializable (new_document Sample.t0 Sample.oid Sample.task1)) as Hs.
  { unfold serializable. vm_compute. eauto 10. }
  split; [exact Hs|].
  destruct (task_helper_total_on_serializable
              (new_document Sample.t0 Sample.oid Sample.task1)) as [Hok _].
  destruct (Hok Hs) as (r & id & Hr & _ & Hid & Hrid & _ & _ & _ & _ & Hdesc & _).
  exists r. split_and!; [exact Hr| |].
  - vm_compute in Hid. injection Hid as <-. exact Hrid.
  - exact Hdesc.
Defined.

(** X2: [get_tasks] leaves the documents as they are; when every stored
    document has the keys [task_helper] subscripts it returns their
    serializations, one per document and in the order of the collection, and
    when one lacks a key the whole listing raises a [KeyError]. *)
Theorem get_tasks_lists_collection (s : store) :
  docs (get_tasks s).2 = docs s
  ∧ (Forall serializable (docs s) →
       ∃ l, (get_tasks s).1 = Ok l
            ∧ Forall2 (λ d r, task_helper (Some d) = Ok r) (docs s) l)
  ∧ (Exists (λ d, ¬ serializable d) (docs s) →
       ∃ k, (get_tasks s).1 = Raise (KeyError k)).
Proof.
  unfold get_tasks. unfold_M. split_and!.
  - by destruct (mapM _ _).
  - intros (l & Hl & Hall)%mapM_task_helper_Ok. exists l. by rewrite Hl.
  - intros [k Hk]%mapM_task_helper_KeyError. exists k. by rewrite Hk.
Qed.

(** ** How requests compose *)

Section Composition.

Implicit Types (id : value) (d : dict) (ds : list dict) (s : store) (e : env).



(** A lookup of another identifier does not see [$set] on this one. *)
Lemma find_set_first_other id id' (set : dict) ds :
  id ≠ id' → set !! "_id" = None →
  List.find (matches id') (set_first id set ds).2 = List.find (matches id') ds.
Proof.
  intros Hne Hset. induction ds as [|d ds IH]; cbn [set_first]; [done|].
  destruct (matches id d) eqn:Hm.
  - cbn [snd List.find]. apply matches_true in Hm.
    assert (matches id' (set ∪ d) = false) as ->.
    { apply not_true_iff_false. rewrite matches_true, lookup_union_r, Hm by done. congruence. }
    assert (matches id' d = false) as ->; [|done].
    apply not_true_iff_false. rewrite matches_true, Hm. congruence.
  - destruct (set_first id set ds) as [n r]. cbn [snd List.find] in *. by rewrite IH.
Qed.

Lemma find_remove_first_other id id' ds :
  id ≠ id' →
  List.find (matches id') (remove_first id ds).2 = List.find (matches id') ds.
Proof.
  intros Hne. induction ds as [|d ds IH]; cbn [remove_first]; [done|].
  destruct (matches id d) eqn:Hm.
  - cbn [snd List.find]. apply matches_true in Hm.
    assert (matches id' d = false) as ->; [|done].
    apply not_true_iff_false. rewrite matches_true, Hm. congruence.
  - destruct (remove_first id ds) as [n r]. cbn [snd List.find] in *. by rewrite IH.
Qed.

Lemma find_app_other id d ds :
  d !! "_id" ≠ Some id →
  List.find (matches id) (ds ++ [d])%list = List.find (matches id) ds.
Proof.
  intros Hne. induction ds as [|d0 ds IH]; cbn [Datatypes.app List.find].
  - assert (matches id d = false) as ->; [|done].
    apply not_true_iff_false. by rewrite matches_true.
  - by rewrite IH.
Qed.

(** [get_task] reads the store through the first match only. *)
Lemma get_task_find task_id s s' :
  (∀ o, ObjectId_of_str task_id = Some o →
        List.find (matches (VObjectId o)) (docs s') = List.find (matches (VObjectId o)) (docs s)) →
  (get_task task_id s').1 = (get_task task_id s).1.
Proof.
  intros Hfind. unfold get_task.
  destruct (is_valid task_id) eqn:Hv; cbn [negb]; [|done].
  destruct (ObjectId_new_valid _ Hv) as (o & Ho & ->). unfold_M.
  rewrite (Hfind o Ho). destruct (truthy _); [|done]. by destruct (task_helper _).
Qed.





Lemma bind_ret_Ok {A B} (m : M A) (f : A → B) s a :
  (m s).1 = Ok a → ((a ← m; mret (f a)) s).1 = Ok (f a).
Proof. unfold mbind, M_bind, mret, M_ret. destruct (m s) as [[a'|ex'] s']; cbn; congruence. Qed.

End Composition.



(** X4: a request about one identifier does not change what [get_task]
    returns for another: [PUT] and [DELETE] on [a] leave [GET] of [b] as it
    was when the two strings denote different identifiers, and so does
    [POST] when the new identifier is not the one [b] denotes. *)
Theorem other_tasks_untouched (e : env) (a b : string) (oa ob : ObjectId) (s : store) :
  ObjectId_of_str a = Some oa → ObjectId_of_str b = Some ob → oa ≠ ob →
  (∀ body, (get_task b (app e (PUT_task a body) s).2).1 = (get_task b s).1)
  ∧ (get_task b (app e (DELETE_task a) s).2).1 = (get_task b s).1
  ∧ (∀ body, fresh e ≠ ob →
       (get_task b (app e (POST_tasks body) s).2).1 = (get_task b s).1).
Proof.
  intros Ha Hb Hne.
  assert (VObjectId oa ≠ VObjectId ob) as Hne' by congruence.
  split_and!.
  - intros body. apply get_task_find. intros o Ho. rewrite Hb in Ho. injection Ho as <-.
    rewrite app_PUT_docs. destruct (TaskUpdate.validate body) as [u|]; [|done].
    unfold update_task. fold (update_fields u).
    destruct (is_valid a) eqn:Hv; cbn [negb]; [|done].
    case_bool_decide; [done|]. unfold ObjectId_new. rewrite Ha. cbn [from_option].
    fold (update_dict (utcnow e) u). unfold_M.
    pose proof (find_set_first_other (VObjectId oa) (VObjectId ob)
                  (update_dict (utcnow e) u) (docs s) Hne' (update_dict_id _ _)) as Hf.
    destruct (set_first _ _ (docs s)) as [n ds]. cbn [snd] in Hf.
    by destruct (n =? 0)%nat.
  - apply get_task_find. intros o Ho. rewrite Hb in Ho. injection Ho as <-.
    rewrite app_DELETE_docs. unfold delete_task.
    destruct (is_valid a) eqn:Hv; cbn [negb]; [|done].
    unfold ObjectId_new. rewrite Ha. cbn [from_option]. unfold_M.
    pose proof (find_remove_first_other (VObjectId oa) (VObjectId ob) (docs s) Hne') as Hf.
    destruct (remove_first _ (docs s)) as [n ds]. cbn [snd] in Hf.
    by destruct (n =? 0)%nat.
  - intros body Hfresh. apply get_task_find. intros o Ho. rewrite Hb in Ho.
    injection Ho as <-. rewrite app_POST_docs.
    destruct (TaskCreate.validate body) as [task|]; [|done].
    destruct (create_task_docs (utcnow e) (fresh e) task s) as [->|[_ ->]]; [done|].
    apply find_app_other. unfold new_document. rewrite lookup_insert_eq. congruence.
Qed.


Lemma other_tasks_untouched_witness :
  ObjectId_of_str Sample.oid_str = Some Sample.oid
  ∧ ObjectId_of_str Sample.other_str = Some Sample2.oid2
  ∧ Sample.oid ≠ Sample2.oid2
  ∧ (get_task Sample.other_str
       (app Sample.e1 (DELETE_task Sample.oid_str) Sample2.store2).2).1
    = (get_task Sample.other_str Sample2.store2).1.
Proof.
  assert (Sample.oid ≠ Sample2.oid2) as Hne by discriminate.
  split_and!; [reflexivity|reflexivity|exact Hne|].
  apply (other_tasks_untouched Sample.e1 Sample.oid_str Sample.other_str
           Sample.oid Sample2.oid2 Sample2.store2); [reflexivity|reflexivity|exact Hne].
Defined.

Section Composition2.

Implicit Types (id : value) (d : dict) (ds : list dict) (s : store) (e : env).

Lemma ObjectId_of_str_valid task_id o :
  ObjectId_of_str task_id = Some o → is_valid task_id = true ∧ task_id ≠ EmptyString.
Proof.
  intros Ho. assert (task_id ≠ EmptyString) as Hne.
  { intros ->. discriminate Ho. }
  split; [|done]. unfold is_valid. by rewrite Ho, bool_decide_eq_false_2.
Qed.

Lemma ObjectId_new_Some task_id o :
  ObjectId_of_str task_id = Some o → ObjectId_new task_id = Ok (VObjectId o).
Proof. intros Ho. unfold ObjectId_new. by rewrite Ho. Qed.

(** The documents after an update that reaches the collection. *)
Lemma update_task_set_first now task_id o u s :
  ObjectId_of_str task_id = Some o → update_fields u ≠ ∅ →
  docs (update_task now task_id u s).2
  = (set_first (VObjectId o) (update_dict now u) (docs s)).2.
Proof.
  intros Ho Hu. destruct (ObjectId_of_str_valid _ _ Ho) as [Hv _].
  unfold update_task. fold (update_fields u). rewrite Hv. cbn [negb].
  rewrite bool_decide_eq_false_2 by done. fold (update_dict now u).
  rewrite (ObjectId_new_Some _ _ Ho). unfold_M.
  destruct (set_first _ _ (docs s)) as [n ds]. cbn [snd].
  by destruct (n =? 0)%nat.
Qed.

Lemma serialized_lookup d r :
  task_helper (Some d) = Ok r →
  r !! "title" = d !! "title" ∧ r !! "status" = d !! "status"
  ∧ r !! "created_at" = d !! "created_at" ∧ r !! "last_updated" = d !! "last_updated"
  ∧ r !! "description" = Some (get d "description")
  ∧ r !! "deadline" = Some (get d "deadline").
Proof.
  intros (id & ti & st & ca & lu & H1 & H2 & H3 & H4 & H5 & ->)%task_helper_inv.
  unfold serialized. rewrite H2, H3, H4, H5. done.
Qed.

Lemma update_dict_field now u k v :
  update_fields u !! k = Some v → update_dict now u !! k = Some v ∧ k ∈ TaskUpdate.field_names.
Proof.
  intros Hk. assert (k ∈ TaskUpdate.field_names) as Hin.
  { apply update_fields_Some in Hk as (Hk & _). by eapply model_dump_keys. }
  split; [|done]. unfold update_dict. rewrite lookup_insert_ne; [done|].
  intros <-. revert Hin. by apply (bool_decide_unpack _).
Qed.

Lemma filter_all {A} (P : A → Prop) `{∀ x, Decision (P x)} (l : list A) :
  Forall P l → filter P l = l.
Proof.
  induction 1 as [|x l Hx _ IH]; [done|].
  rewrite filter_cons_True by done. by rewrite IH.
Qed.

Lemma remove_first_filter id ds :
  NoDup (ids ds) →
  (remove_first id ds).2 = filter (λ d, d !! "_id" ≠ Some id) ds.
Proof.
  induction ds as [|d ds IH]; cbn [remove_first ids fmap list_fmap]; [done|].
  intros [Hnot Hnd]%NoDup_cons. destruct (matches id d) eqn:Hm.
  - cbn [snd]. apply matches_true in Hm.
    rewrite filter_cons_False by (intros Hne; by apply Hne).
    symmetry. apply filter_all, Forall_forall. intros d' Hin Hid.
    apply Hnot. rewrite Hm, <- Hid.
    apply (list_elem_of_fmap_2 (λ d, d !! "_id")), Hin.
  - specialize (IH Hnd). destruct (remove_first id ds) as [n r]. cbn [snd] in *.
    rewrite filter_cons_True; [by rewrite IH|].
    intros Hid. apply matches_true in Hid. congruence.
Qed.

Lemma remove_first_length id ds :
  existsb (matches id) ds = true → S (length (remove_first id ds).2) = length ds.
Proof.
  induction ds as [|d ds IH]; cbn [remove_first existsb]; [discriminate|].
  destruct (matches id d); cbn [orb]; [done|].
  intros Hex%IH. destruct (remove_first id ds) as [n r]. cbn [snd length] in *. lia.
Qed.

Lemma mapM_task_helper_app (ds : list dict) d l r :
  mapM (λ task, task_helper (Some task)) ds = Ok l →
  task_helper (Some d) = Ok r →
  mapM (λ task, task_helper (Some task)) (ds ++ [d])%list = Ok (l ++ [r])%list.
Proof.
  intros Hl Hr. revert l Hl. induction ds as [|d0 ds IH]; intros l Hl.
  - cbn in Hl. injection Hl as <-. cbn [Datatypes.app mapM]. by rewrite Hr.
  - cbn [Datatypes.app mapM] in *.
    destruct (task_helper (Some d0)) as [r0|]; [|discriminate].
    cbn [mbind result_bind] in *.
    destruct (mapM _ ds) as [l0|]; [|discriminate].
    cbn [mbind result_bind] in Hl. injection Hl as <-.
    by rewrite (IH l0 eq_refl).
Qed.

(** [$set] with the same keys again replaces what the first wrote. *)
Lemma set_first_twice id (set set' : dict) ds :
  set !! "_id" = None → (∀ k, is_Some (set !! k) → is_Some (set' !! k)) →
  (set_first id set' (set_first id set ds).2).2 = (set_first id set' ds).2.
Proof.
  intros Hid Hkeys. induction ds as [|d ds IH]; cbn [set_first]; [done|].
  destruct (matches id d) eqn:Hm.
  - cbn [snd set_first].
    assert (matches id (set ∪ d) = true) as ->.
    { apply matches_true in Hm. apply matches_true. by rewrite lookup_union_r. }
    cbn [snd]. f_equal. apply map_eq. intros k.
    rewrite !lookup_union. destruct (set' !! k) as [v'|] eqn:Hk'.
    + by destruct (set !! k), (d !! k).
    + destruct (set !! k) as [v|] eqn:Hk; [|by rewrite (left_id None _)].
      destruct (Hkeys k) as [? ?]; [by rewrite Hk|congruence].
  - destruct (set_first id set ds) as [n r]. cbn [snd set_first] in *.
    rewrite Hm. destruct (set_first id set' r) as [n' r'].
    destruct (set_first id set' ds) as [n'' r'']. cbn [snd] in *. by rewrite IH.
Qed.

End Composition2.

(** X5: after an update that finds its task, [get_task] on the same
    identifier returns what the update returned; the returned task has the
    clock reading as ["last_updated"] and, for every field the payload
    applied, the value of the payload. *)
Theorem update_then_get (now : datetime) (task_id : string) (u : TaskUpdate.t) (s : store) :
  is_valid task_id = true → stored task_id s = true → update_fields u ≠ ∅ →
  (get_task task_id (update_task now task_id u s).2).1 = (update_task now task_id u s).1
  ∧ ∀ r, (update_task now task_id u s).1 = Ok r →
      r !! "last_updated" = Some (VStr (isoformat now))
      ∧ ∀ k v, update_fields u !! k = Some v → r !! k = Some v.
Proof.
  intros Hv Hs Hu.
  destruct (update_task_found now task_id u s Hv Hs Hu) as (o & d & Ho & Hd & Hr & Hdocs).
  destruct (ObjectId_of_str_valid _ _ Ho) as [_ Hne].
  assert (List.find (matches (VObjectId o)) (docs (update_task now task_id u s).2)
          = Some (update_dict now u ∪ d)) as Hfind.
  { rewrite Hdocs.
    destruct (find_set_first (VObjectId o) (update_dict now u) (docs s))
      as (d' & Hd' & Hset).
    - apply update_dict_id.
    - unfold stored in Hs. by rewrite Ho in Hs.
    - congruence. }
  split.
  - rewrite Hr. by apply (get_task_found _ o).
  - intros r Hok. rewrite Hr in Hok.
    destruct (serialized_lookup _ _ Hok) as (Hti & Hst & _ & Hlu & Hde & Hdl).
    split.
    + rewrite Hlu. apply lookup_union_Some_l. unfold update_dict.
      by rewrite lookup_insert_eq.
    + intros k v Hk. destruct (update_dict_field now u k v Hk) as [Hset Hin].
      assert ((update_dict now u ∪ d) !! k = Some v) as Hkv
        by (by apply lookup_union_Some_l).
      unfold TaskUpdate.field_names in Hin.
      apply elem_of_cons in Hin as [->|Hin]; [rewrite Hti; exact Hkv|].
      apply elem_of_cons in Hin as [->|Hin].
      { rewrite Hde. unfold get. rewrite Hkv. reflexivity. }
      apply elem_of_cons in Hin as [->|Hin].
      { rewrite Hdl. unfold get. rewrite Hkv. reflexivity. }
      apply elem_of_cons in Hin as [->|Hin]; [rewrite Hst; exact Hkv|].
      apply elem_of_nil in Hin. destruct Hin.
Qed.

Lemma update_then_get_witness :
  is_valid Sample.oid_str = true
  ∧ stored Sample.oid_str Sample.store1 = true
  ∧ update_fields Sample.set_done ≠ ∅
  ∧ (get_task Sample.oid_str
       (update_task Sample.t1 Sample.oid_str Sample.set_done Sample.store1).2).1
    = (update_task Sample.t1 Sample.oid_str Sample.set_done Sample.store1).1.
Proof.
  assert (update_fields Sample.set_done ≠ ∅) as Hu by (by vm_compute).
  split_and!; [reflexivity|reflexivity|exact Hu|].
  apply (update_then_get Sample.t1 Sample.oid_str Sample.set_done Sample.store1);
    [reflexivity|reflexivity|exact Hu].
Defined.


(** X6: in a collection with unique identifiers, deleting a stored task
    removes the one document with that identifier and keeps every other
    document, in order; the collection is one shorter and [get_task] on the
    identifier then raises the 404. *)
Theorem delete_removes_exactly_one (task_id : string) (s : store) :
  is_valid task_id = true → NoDup (ids (docs s)) → stored task_id s = true →
  ∃ o, ObjectId_of_str task_id = Some o
    ∧ docs (delete_task task_id s).2
      = filter (λ d, d !! "_id" ≠ Some (VObjectId o)) (docs s)
    ∧ S (length (docs (delete_task task_id s).2)) = length (docs s)
    ∧ (get_task task_id (delete_task task_id s).2).1
      = Raise (HTTPException 404 "Task not found").
Proof.
  intros Hv Hnd Hs.
  destruct (delete_task_stored task_id s Hv Hs) as (o & Ho & _ & Hdocs).
  exists o. rewrite Hdocs. split_and!; [done| | |].
  - by apply remove_first_filter.
  - apply remove_first_length. unfold stored in Hs. by rewrite Ho in Hs.
  - apply get_task_missing; [done|]. unfold stored. rewrite Ho, Hdocs.
    by apply remove_first_gone.
Qed.

Lemma delete_removes_exactly_one_witness :
  is_valid Sample.oid_str = true
  ∧ NoDup (ids (docs Sample2.store2))
  ∧ stored Sample.oid_str Sample2.store2 = true
  ∧ ∃ o, ObjectId_of_str Sample.oid_str = Some o
      ∧ docs (delete_task Sample.oid_str Sample2.store2).2
        = filter (λ d, d !! "_id" ≠ Some (VObjectId o)) (docs Sample2.store2)
      ∧ S (length (docs (delete_task Sample.oid_str Sample2.store2).2))
        = length (docs Sample2.store2)
      ∧ (get_task Sample.oid_str (delete_task Sample.oid_str Sample2.store2).2).1
        = Raise (HTTPException 404 "Task not found").
Proof.
  assert (NoDup (ids (docs Sample2.store2))) as Hnd.
  { unfold Sample2.store2. apply app_NoDup. rewrite store1_docs. apply NoDup_singleton. }
  split_and!; [reflexivity|exact Hnd|reflexivity|].
  exact (delete_removes_exactly_one Sample.oid_str Sample2.store2 eq_refl Hnd eq_refl).
Defined.


(** X7: after a [POST /tasks] that succeeds, [GET /tasks] returns the
    listing of before with the created task appended. *)
Theorem create_then_list (e e' : env) (b : body) (task : TaskCreate.t) (s : store)
    (l : list dict) :
  TaskCreate.validate b = Ok task → unused (fresh e) s →
  (get_tasks s).1 = Ok l →
  ∃ r, (app e (POST_tasks b) s).1 = Ok (JSONObject r)
       ∧ (app e' GET_tasks (app e (POST_tasks b) s).2).1 = Ok (JSONArray (l ++ [r])).
Proof.
  intros Hb Hfree Hl.
  destruct (app_POST_fresh e b task s Hb Hfree) as [Hr Hdocs].
  exists (new_response (utcnow e) (fresh e) task). split; [done|].
  set (s' := (app e (POST_tasks b) s).2) in *.
  unfold app. apply (bind_ret_Ok _ JSONArray).
  unfold get_tasks in *. unfold_M. rewrite Hdocs.
  destruct (mapM _ (docs s)) as [l0|] eqn:Hl0; [|discriminate].
  cbn in Hl. injection Hl as ->.
  by rewrite (mapM_task_helper_app _ _ l _ Hl0 (task_helper_new _ _ _)).
Qed.

Lemma create_then_list_witness :
  TaskCreate.validate Sample.new_task = Ok Sample.task1
  ∧ unused (fresh Sample.e0) empty_store
  ∧ (get_tasks empty_store).1 = Ok []
  ∧ ∃ r, (app Sample.e0 (POST_tasks Sample.new_task) empty_store).1 = Ok (JSONObject r)
       ∧ (app Sample.e1 GET_tasks
            (app Sample.e0 (POST_tasks Sample.new_task) empty_store).2).1
         = Ok (JSONArray ([] ++ [r])).
Proof.
  split_and!; [reflexivity|reflexivity|reflexivity|].
  apply (create_then_list Sample.e0 Sample.e1 Sample.new_task Sample.task1 empty_store []);
    reflexivity.
Defined.


(** X8: sending the same update twice leaves the documents as sending it
    once at the later clock reading: the second [PUT] changes nothing but
    ["last_updated"]. *)
Theorem repeated_update (now now' : datetime) (task_id : string) (u : TaskUpdate.t)
    (s : store) :
  docs (update_task now' task_id u (update_task now task_id u s).2).2
  = docs (update_task now' task_id u s).2.
Proof.
  destruct (ObjectId_of_str task_id) as [o|] eqn:Ho.
  2:{ assert (is_valid task_id = false) as Hv.
      { unfold is_valid. rewrite Ho. by case_bool_decide. }
      unfold update_task. by rewrite Hv. }
  destruct (decide (update_fields u = ∅)) as [Hu|Hu].
  { destruct (ObjectId_of_str_valid _ _ Ho) as [Hv _].
    unfold update_task. fold (update_fields u). rewrite Hv. cbn [negb].
    by rewrite bool_decide_eq_true_2. }
  rewrite !(update_task_set_first _ _ o) by done.
  apply set_first_twice; [apply update_dict_id|].
  intros k. unfold update_dict. destruct (decide (k = "last_updated")) as [->|Hk].
  - by rewrite !lookup_insert_eq.
  - by rewrite !lookup_insert_ne.
Qed.

(** X9: two strings that denote the same identifier are interchangeable:
    [get_task] and [update_task] return the same and leave the same store,
    [delete_task] leaves the same documents, and its confirmation carries
    the string as the caller wrote it. *)
Theorem identifier_spellings (now : datetime) (a b : string) (o : ObjectId)
    (u : TaskUpdate.t) (s : store) :
  ObjectId_of_str a = Some o → ObjectId_of_str b = Some o →
  get_task a s = get_task b s
  ∧ update_task now a u s = update_task now b u s
  ∧ docs (delete_task a s).2 = docs (delete_task b s).2
  ∧ ∀ r, (delete_task a s).1 = Ok r → r !! "id" = Some (VStr a).
Proof.
  intros Ha Hb.
  destruct (ObjectId_of_str_valid _ _ Ha) as [Hva _].
  destruct (ObjectId_of_str_valid _ _ Hb) as [Hvb _].
  unfold get_task, update_task, delete_task.
  rewrite Hva, Hvb, !(ObjectId_new_Some _ _ Ha), !(ObjectId_new_Some _ _ Hb).
  cbn [negb]. split_and!; [done|done| |].
  - unfold_M. destruct (remove_first _ (docs s)) as [n ds]. cbn [snd].
    by destruct (n =? 0)%nat.
  - intros r. unfold_M. destruct (remove_first _ (docs s)) as [n ds].
    destruct (n =? 0)%nat; [discriminate|]. cbn. intros [= <-].
    by rewrite lookup_insert_ne, lookup_insert_eq.
Qed.

Lemma identifier_spellings_witness :
  ObjectId_of_str Sample.oid_str = Some Sample.oid
  ∧ ObjectId_of_str Sample2.upper_str = Some Sample.oid
  ∧ get_task Sample.oid_str Sample.store1 = get_task Sample2.upper_str Sample.store1.
Proof.
  split_and!; [reflexivity|reflexivity|].
  apply (identifier_spellings Sample.t1 Sample.oid_str Sample2.upper_str Sample.oid
           Sample.set_done Sample.store1); reflexivity.
Defined.

(** ** The models and the stored documents *)

Section Typed.

Implicit Types (d : dict) (s : store) (e : env) (b : body).

Lemma validate_create_title b (task : TaskCreate.t) :
  TaskCreate.validate b = Ok task → length_1_200 (TaskCreate.title task) = true.
Proof.
  unfold TaskCreate.validate. cbn [mbind result_bind].
  destruct (b !! "title") as [[| ti |]|]; cbn [str_field from_option]; try discriminate.
  destruct (length_1_200 ti) eqn:Hlen; [|discriminate]. cbn [mbind result_bind].
  destruct (optional_str_field unconstrained (b !! "description")); [|discriminate].
  cbn [mbind result_bind].
  destruct (optional_str_field unconstrained (b !! "deadline")); [|discriminate].
  cbn [mbind result_bind].
  destruct (str_field status_pattern _ _); [|discriminate].
  cbn [mbind result_bind]. by intros [= <-].
Qed.

Lemma validate_update_title b (u : TaskUpdate.t) (ti : string) :
  TaskUpdate.validate b = Ok u → TaskUpdate.title u = Some ti → length_1_200 ti = true.
Proof.
  unfold TaskUpdate.validate. cbn [mbind result_bind].
  destruct (b !! "title") as [[| ti' |]|]; cbn [optional_str_field]; try discriminate.
  - cbn [mbind result_bind].
    destruct (optional_str_field unconstrained (b !! "description")); [|discriminate].
    cbn [mbind result_bind].
    destruct (optional_str_field unconstrained (b !! "deadline")); [|discriminate].
    cbn [mbind result_bind].
    destruct (optional_str_field status_pattern _); [|discriminate].
    cbn [mbind result_bind]. intros [= <-]. discriminate.
  - destruct (length_1_200 ti') eqn:Hlen; [|discriminate]. cbn [mbind result_bind].
    destruct (optional_str_field unconstrained (b !! "description")); [|discriminate].
    cbn [mbind result_bind].
    destruct (optional_str_field unconstrained (b !! "deadline")); [|discriminate].
    cbn [mbind result_bind].
    destruct (optional_str_field status_pattern _); [|discriminate].
    cbn [mbind result_bind]. intros [= <-]. cbn. by intros [= <-].
  - cbn [mbind result_bind].
    destruct (optional_str_field unconstrained (b !! "description")); [|discriminate].
    cbn [mbind result_bind].
    destruct (optional_str_field unconstrained (b !! "deadline")); [|discriminate].
    cbn [mbind result_bind].
    destruct (optional_str_field status_pattern _); [|discriminate].
    cbn [mbind result_bind]. intros [= <-]. discriminate.
Qed.

Lemma optional_str_of_optional (o : option string) : optional_str (Some (of_optional o)).
Proof. destruct o as [x|]; [right; by exists x|by left]. Qed.

Lemma typed_new now o task b :
  TaskCreate.validate b = Ok task → typed_document (new_document now o task).
Proof.
  intros Hb. unfold typed_document, new_document. split_and!.
  - exists o. by rewrite lookup_insert_eq.
  - exists (TaskCreate.title task). rewrite lookup_insert_ne, lookup_insert_eq by done.
    split; [done|]. by eapply validate_create_title.
  - do 2 rewrite lookup_insert_ne by done. rewrite lookup_insert_eq.
    apply optional_str_of_optional.
  - do 3 rewrite lookup_insert_ne by done. rewrite lookup_insert_eq.
    apply optional_str_of_optional.
  - by eapply status_ok_new.
  - do 5 rewrite lookup_insert_ne by done. rewrite lookup_insert_eq. eauto.
  - do 6 rewrite lookup_insert_ne by done. rewrite lookup_insert_eq. eauto.
Qed.

(** What the [$set] argument holds under a key. *)
Lemma update_dict_Some now (u : TaskUpdate.t) k v :
  update_dict now u !! k = Some v →
  (k = "last_updated" ∧ v = VStr (isoformat now))
  ∨ (k = "title" ∧ ∃ x, TaskUpdate.title u = Some x ∧ v = VStr x)
  ∨ (k = "description" ∧ ∃ x, v = VStr x)
  ∨ (k = "deadline" ∧ ∃ x, v = VStr x)
  ∨ (k = "status" ∧ ∃ x, TaskUpdate.status u = Some x ∧ v = VStr x).
Proof.
  unfold update_dict. intros [[<- <-]|[Hk Hv]]%lookup_insert_Some.
  { left. split; reflexivity. }
  right.
  apply update_fields_Some in Hv as (Hv & _ & Hnn). unfold TaskUpdate.model_dump in Hv.
  apply lookup_insert_Some in Hv as [[<- <-]|[_ Hv]].
  { left. split; [reflexivity|].
    destruct (TaskUpdate.title u) as [x|]; [exists x; split; reflexivity|].
    exfalso. apply Hnn. reflexivity. }
  right. apply lookup_insert_Some in Hv as [[<- <-]|[_ Hv]].
  { left. split; [reflexivity|].
    destruct (TaskUpdate.description u) as [x|]; [exists x; reflexivity|].
    exfalso. apply Hnn. reflexivity. }
  right. apply lookup_insert_Some in Hv as [[<- <-]|[_ Hv]].
  { left. split; [reflexivity|].
    destruct (TaskUpdate.deadline u) as [x|]; [exists x; reflexivity|].
    exfalso. apply Hnn. reflexivity. }
  right. apply lookup_insert_Some in Hv as [[<- <-]|[_ Hv]].
  { split; [reflexivity|].
    destruct (TaskUpdate.status u) as [x|]; [exists x; split; reflexivity|].
    exfalso. apply Hnn. reflexivity. }
  rewrite lookup_empty in Hv. discriminate Hv.
Qed.

Lemma typed_set now (u : TaskUpdate.t) d b :
  TaskUpdate.validate b = Ok u → typed_document d → typed_document (update_dict now u ∪ d).
Proof.
  intros Hb ((o & Hid) & (ti & Hti & Hlen) & Hde & Hdl & Hst & (ca & Hca) & (lu & Hlu)).
  unfold typed_document. split_and!.
  - exists o. rewrite lookup_union_r; [exact Hid|apply update_dict_id].
  - destruct (update_dict now u !! "title") as [v|] eqn:Hv.
    + apply update_dict_Some in Hv as Hc.
      destruct Hc as [[[=] _]|[(_ & x & Hx & ->)|[[[=] _]|[[[=] _]|[[=] _]]]]].
      exists x. split; [apply lookup_union_Some_l; exact Hv|].
      exact (validate_update_title b u x Hb Hx).
    + exists ti. rewrite lookup_union_r by exact Hv. split; assumption.
  - destruct (update_dict now u !! "description") as [v|] eqn:Hv.
    + apply update_dict_Some in Hv as Hc.
      destruct Hc as [[[=] _]|[[[=] _]|[(_ & x & ->)|[[[=] _]|[[=] _]]]]].
      right. exists x. apply lookup_union_Some_l. exact Hv.
    + rewrite lookup_union_r by exact Hv. exact Hde.
  - destruct (update_dict now u !! "deadline") as [v|] eqn:Hv.
    + apply update_dict_Some in Hv as Hc.
      destruct Hc as [[[=] _]|[[[=] _]|[[[=] _]|[(_ & x & ->)|[[=] _]]]]].
      right. exists x. apply lookup_union_Some_l. exact Hv.
    + rewrite lookup_union_r by exact Hv. exact Hdl.
  - exact (status_ok_set now u d b Hb Hst).
  - exists ca. rewrite lookup_union_r; [exact Hca|]. unfold update_dict.
    rewrite lookup_insert_ne by discriminate. apply update_fields_created_at.
  - exists (isoformat now). apply lookup_union_Some_l. unfold update_dict.
    apply lookup_insert_eq.
Qed.

Lemma serve_typed (trace : list (env * request)) s :
  Forall typed_document (docs s) → Forall typed_document (docs (serve trace s)).
Proof.
  revert s. induction trace as [|[e r] trace IH]; intros s Hs; [done|].
  cbn [serve foldl]. apply IH. apply app_Forall; [| |done].
  - intros b task Hb. by eapply typed_new.
  - intros b u d Hb. by eapply typed_set.
Qed.

(** The serialization of a typed document passes the response model
    unchanged. *)
Lemma typed_response d :
  typed_document d →
  ∃ r m, task_helper (Some d) = Ok r
         ∧ TaskResponse.validate r = Some m
         ∧ TaskResponse.dump m = r.
Proof.
  intros ((o & Hid) & (ti & Hti & Hlen) & Hde & Hdl & (st & Hst & Hin)
          & (ca & Hca) & (lu & Hlu)).
  assert (status_pattern st = true) as Hpat by (by apply bool_decide_eq_true_2).
  assert (∃ de, get d "description" = of_optional de) as [de Hde'].
  { unfold get. destruct Hde as [->|[x ->]]; [by exists None|by exists (Some x)]. }
  assert (∃ dl, get d "deadline" = of_optional dl) as [dl Hdl'].
  { unfold get. destruct Hdl as [->|[x ->]]; [by exists None|by exists (Some x)]. }
  exists (serialized d (VObjectId o) (VStr ti) (VStr st) (VStr ca) (VStr lu)).
  exists {| TaskResponse.title := ti; TaskResponse.description := de;
            TaskResponse.deadline := dl; TaskResponse.status := st;
            TaskResponse.id := ObjectId_str o; TaskResponse.created_at := ca;
            TaskResponse.last_updated := lu |}.
  split_and!.
  - by apply task_helper_Ok.
  - unfold TaskResponse.validate, serialized. rewrite Hde', Hdl'.
    rewrite lookup_insert_eq.
    rewrite (lookup_insert_ne _ "_id" "title"), lookup_insert_eq by done.
    do 2 rewrite (lookup_insert_ne _ _ "description") by done. rewrite lookup_insert_eq.
    do 3 rewrite (lookup_insert_ne _ _ "deadline") by done. rewrite lookup_insert_eq.
    do 4 rewrite (lookup_insert_ne _ _ "status") by done. rewrite lookup_insert_eq.
    do 5 rewrite (lookup_insert_ne _ _ "created_at") by done. rewrite lookup_insert_eq.
    do 6 rewrite (lookup_insert_ne _ _ "last_updated") by done. rewrite lookup_insert_eq.
    cbn [TaskResponse.str_value py_str]. rewrite Hlen, Hpat. cbn [mbind option_bind].
    by destruct de, dl.
  - unfold TaskResponse.dump, serialized. cbn. by rewrite Hde', Hdl'.
Qed.

End Typed.

(** X10: after any sequence of requests served from the empty collection,
    the serialization of every stored document passes [TaskResponse]
    (a title of 1 to 200 characters, a status among the four, strings for
    the identifier and the timestamps), and the model hands it on
    unchanged. *)
Theorem responses_pass_response_model (trace : list (env * request)) :
  Forall (λ d, ∃ r m, task_helper (Some d) = Ok r
                      ∧ TaskResponse.validate r = Some m
                      ∧ TaskResponse.dump m = r)
    (docs (serve trace empty_store)).
Proof.
  eapply Forall_impl; [apply (serve_typed trace empty_store); constructor|].
  intros d. apply typed_response.
Qed.

Lemma filter_ext_in {A} (P1 P2 : A → Prop)
    `{!∀ x, Decision (P1 x), !∀ x, Decision (P2 x)} (l : list A) :
  (∀ x, x ∈ l → P1 x ↔ P2 x) → filter P1 l = filter P2 l.
Proof.
  induction l as [|a l IH]; intros Hiff; [done|].
  assert (filter P1 l = filter P2 l) as Hl.
  { apply IH. intros x Hx. apply Hiff. by right. }
  destruct (decide (P1 a)) as [Ha|Ha].
  - rewrite !filter_cons_True; [by rewrite Hl|by apply Hiff; [left|]|done].
  - rewrite !filter_cons_False; [done| |done]. intros Hb. apply Ha, Hiff; [by left|done].
Qed.

(** X11: a key of the body that is not a field of the model changes
    nothing: [POST] and [PUT] with the key added respond and write as
    without it, so no payload sets ["_id"], ["created_at"] or
    ["last_updated"]. *)
Theorem unknown_keys_ignored (e : env) (task_id k : string) (v : json) (b : body)
    (s : store) :
  k ∉ TaskUpdate.field_names →
  app e (POST_tasks (<[k := v]> b)) s = app e (POST_tasks b) s
  ∧ app e (PUT_task task_id (<[k := v]> b)) s = app e (PUT_task task_id b) s.
Proof.
  intros Hk.
  assert (∀ f, f ∈ TaskUpdate.field_names → <[k := v]> b !! f = b !! f) as Hlook.
  { intros f Hf. apply lookup_insert_ne. by intros ->. }
  assert (TaskCreate.validate (<[k := v]> b) = TaskCreate.validate b) as Hc.
  { unfold TaskCreate.validate.
    by rewrite !Hlook by (by apply (bool_decide_unpack _)). }
  assert (TaskUpdate.validate (<[k := v]> b) = TaskUpdate.validate b) as Hu.
  { unfold TaskUpdate.validate.
    rewrite !Hlook by (by apply (bool_decide_unpack _)).
    assert (filter (λ f, is_Some (<[k := v]> b !! f)) TaskUpdate.field_names
            = filter (λ f, is_Some (b !! f)) TaskUpdate.field_names) as ->; [|done].
    apply filter_ext_in. intros f Hf. by rewrite Hlook. }
  unfold app. by rewrite Hc, Hu.
Qed.

Lemma unknown_keys_ignored_witness :
("created_at" ∉ TaskUpdate.field_names)
  ∧ app Sample.e1 (PUT_task Sample.oid_str
                     (<["created_at" := JString "1999-01-01T00:00:00"]> Sample2.done_body))
        Sample.store1
    = app Sample.e1 (PUT_task Sample.oid_str Sample2.done_body) Sample.store1.
Proof.
  assert ("created_at" ∉ TaskUpdate.field_names) as Hk
    by (by apply (bool_decide_unpack _)).
  split; [exact Hk|].
  apply (unknown_keys_ignored Sample.e1 Sample.oid_str "created_at"
           (JString "1999-01-01T00:00:00") Sample2.done_body Sample.store1 Hk).
Defined.

(** ** Timestamps *)

Lemma lex_compare_Eq (xs ys : list N) : lex_compare xs ys = Eq → xs = ys.
Proof.
  revert ys. induction xs as [|x xs IH]; intros [|y ys]; cbn [lex_compare];
    try discriminate; [done|].
  destruct (N.compare_spec x y) as [->|?|?]; try discriminate.
  intros ->%IH. done.
Qed.

Lemma datetime_fields_inj (a b : datetime) :
  datetime_fields a = datetime_fields b → a = b.
Proof. destruct a, b. unfold datetime_fields. cbn. by intros [= -> -> -> -> -> -> ->]. Qed.

(** X12: two timestamps written by [isoformat] compare as strings the way
    the instants compare, so stored timestamps sort chronologically, and
    two different instants never get the same timestamp. *)
Theorem timestamps_sort_chronologically (a b : datetime) :
  datetime_ok a → datetime_ok b →
  str_compare (isoformat a) (isoformat b) = datetime_compare a b
  ∧ (isoformat a = isoformat b → a = b).
Proof.
  intros Ha Hb. pose proof (isoformat_compare a b Ha Hb) as Hcmp.
  split; [exact Hcmp|]. intros Heq.
  apply datetime_fields_inj, lex_compare_Eq. fold (datetime_compare a b).
  rewrite <- Hcmp, Heq. apply lex_compare_refl.
Qed.

Lemma timestamps_sort_chronologically_witness :
  datetime_ok Sample.t0 ∧ datetime_ok Sample.t1
  ∧ str_compare (isoformat Sample.t0) (isoformat Sample.t1)
    = datetime_compare Sample.t0 Sample.t1.
Proof.
  assert (datetime_ok Sample.t0) as H0 by (unfold datetime_ok; cbn; lia).
  assert (datetime_ok Sample.t1) as H1 by (unfold datetime_ok; cbn; lia).
  split_and!; [exact H0|exact H1|].
  apply (timestamps_sort_chronologically Sample.t0 Sample.t1 H0 H1).
Defined.

(** ** Requests that only read *)

(** X13: the three [GET] routes leave the documents as they are; the
    health check does not call the collection at all and reports "online"
    with the clock reading, whatever the store holds. *)
Theorem reads_keep_documents (e : env) (task_id : string) (s : store) :
  (∃ d, app e GET_root s = (Ok (JSONObject d), s)
        ∧ d !! "status" = Some (VStr "online")
        ∧ d !! "timestamp" = Some (VStr (isoformat (utcnow e))))
  ∧ docs (app e GET_tasks s).2 = docs s
  ∧ docs (app e (GET_task task_id) s).2 = docs s.
Proof.
  split_and!.
  - eexists. split; [reflexivity|]. split.
    + apply lookup_insert_eq.
    + do 2 rewrite lookup_insert_ne by discriminate. apply lookup_insert_eq.
  - apply app_list_docs.
  - apply app_GET_docs.
Qed.

(** ** The connection string *)

Section Quote.







End Quote.


Example quote_plus_example :
  Urllib.quote_plus "p@ss w:rd/1%" = "p%40ss+w%3Ard%2F1%25".
Proof. reflexivity. Qed.
